(** * WADS help-desk backend: a shallow embedding of the notification
      registry, the document store handlers and their role guards.

    Sources embedded here (paths relative to [src/backend/app]):
    - [websocket/manager.py]   the [ConnectionManager] registry,
    - [websocket/routes.py]    the [/connect] endpoint,
    - [services/notification_service.py],
    - [utils/auth.py]          [check_ticket_permissions],
    - [routes/auth.py], [routes/tickets.py], [routes/chat.py],
      [routes/notifications.py].

    Handlers are [async def] coroutines.  They are embedded as terms of a
    small freer monad [Task]: every [await] on the database or on a socket
    is one atomic operation on the [World]; the code between two awaits runs
    without interruption, as it does on the asyncio event loop. *)

From Stdlib Require Import ZArith QArith Qround Lia Ascii String.
From stdpp Require Import gmap strings list.

Set Default Proof Using "Type".
Set Warnings "-register-all,-clear-no-such-hyp".
Open Scope string_scope.

(** ** Object identifiers *)

(** A BSON [ObjectId] is twelve bytes; [str] prints it as 24 lower-case
    hexadecimal digits and [ObjectId(s)] parses such a string (either
    case).  The model takes the strings of 24 hexadecimal digits to be the
    valid ones and lets every other string raise [InvalidId].  The
    identifier is kept in its printed form. *)
Record ObjectId := Oid { oid_hex : string }.

#[global] Instance ObjectId_eq_dec : EqDecision ObjectId.
Proof. solve_decision. Defined.

Definition is_hex (c : ascii) : bool :=
  bool_decide (c ∈ list_ascii_of_string "0123456789abcdefABCDEF").

Definition lower_ascii (c : ascii) : ascii :=
  let n := nat_of_ascii c in
  if bool_decide (65 ≤ n ≤ 90)%nat then ascii_of_nat (n + 32) else c.

Fixpoint lower (s : string) : string :=
  match s with
  | EmptyString => EmptyString
  | String c s' => String (lower_ascii c) (lower s')
  end.

(** [ObjectId.is_valid] on a [str]. *)
Definition ObjectId_is_valid (s : string) : bool :=
  bool_decide (String.length s = 24%nat) && forallb is_hex (list_ascii_of_string s).

(** [ObjectId(s)]: [None] stands for [InvalidId]. *)
Definition ObjectId_of (s : string) : option ObjectId :=
  if ObjectId_is_valid s then Some (Oid (lower s)) else None.

(** [str(oid)]. *)
Definition str (o : ObjectId) : string := oid_hex o.

Definition hex_digit (n : N) : ascii :=
  nth (N.to_nat n) (list_ascii_of_string "0123456789abcdef") "0"%char.

Fixpoint hex_fixed (width : nat) (n : N) : string :=
  match width with
  | O => EmptyString
  | S w => hex_fixed w (n / 16) +:+ String (hex_digit (n mod 16)) EmptyString
  end.

(** The driver draws a fresh identifier for every inserted document; the
    store keeps a counter for it. *)
Definition fresh_oid (n : N) : ObjectId := Oid (hex_fixed 24 n).

(** ** Python values and JSON *)

(** The values the handlers put into messages.  [json.dumps] accepts
    [None], booleans, integers, strings (string-valued [Enum] members
    included), lists and dicts of those; a [datetime] or an [ObjectId]
    makes it raise [TypeError]. *)
Inductive Value :=
| PNone
| PBool (b : bool)
| PInt (z : Z)
| PStr (s : string)
| PDatetime (t : nat)
| PObjectId (o : ObjectId)
| PList (l : list Value)
| PDict (d : list (string * Value)).

Fixpoint json_serializable (v : Value) : bool :=
  match v with
  | PDatetime _ | PObjectId _ => false
  | PList l => forallb json_serializable l
  | PDict d => forallb (fun kv => json_serializable (snd kv)) d
  | _ => true
  end.

(** [json.dumps(v)]: the text on the wire is kept as the value it denotes;
    [None] stands for [TypeError]. *)
Definition json_dumps (v : Value) : option Value :=
  if json_serializable v then Some v else None.

(** [d.get(k)] on the items of a dict. *)
Fixpoint dict_get (k : string) (d : list (string * Value)) : option Value :=
  match d with
  | [] => None
  | (k', v) :: d' => if bool_decide (k' = k) then Some v else dict_get k d'
  end.

(** [d[k] = v]: replaces the item in place, or appends it. *)
Fixpoint dict_set (k : string) (v : Value) (d : list (string * Value))
  : list (string * Value) :=
  match d with
  | [] => [(k, v)]
  | (k', v') :: d' =>
      if bool_decide (k' = k) then (k, v) :: d' else (k', v') :: dict_set k v d'
  end.

(** [message.get(k)]: [None] (here the outer [None]) stands for the
    [AttributeError] of a value that is not a dict; a missing key gives
    Python's [None]. *)
Definition value_get (k : string) (v : Value) : option Value :=
  match v with
  | PDict d => Some (default PNone (dict_get k d))
  | _ => None
  end.

(** Python truthiness, for [if notification_id:]. *)
Definition truthy (v : Value) : bool :=
  match v with
  | PNone => false
  | PBool b => b
  | PInt z => negb (z =? 0)%Z
  | PStr s => negb (bool_decide (s = ""))
  | PDatetime _ | PObjectId _ => true
  | PList l => negb (bool_decide (length l = 0%nat))
  | PDict d => negb (bool_decide (length d = 0%nat))
  end.


(** ** Exceptions *)

Inductive Exc :=
| HTTPException (status_code : nat) (detail : string)
| WebSocketDisconnect
| JWTError
| Exception (name : string).

#[global] Instance Exc_eq_dec : EqDecision Exc.
Proof. solve_decision. Defined.

(** ** WebSocket objects *)

(** Starlette's [WebSocketState]. *)
Inductive WebSocketState := CONNECTING | CONNECTED | DISCONNECTED.

#[global] Instance WebSocketState_eq_dec : EqDecision WebSocketState.
Proof. solve_decision. Defined.

Definition state_name (s : WebSocketState) : string :=
  match s with
  | CONNECTING => "CONNECTING"
  | CONNECTED => "CONNECTED"
  | DISCONNECTED => "DISCONNECTED"
  end.

(** A [WebSocket] object of the framework, as far as the repository uses
    it: [client_state] follows what the peer sent, [application_state] what
    the server sent, [sent] is the list of text frames handed to the
    transport (oldest first) and [fault], set by the environment, is the
    exception the transport raises on the next [send_text] or [close]. *)
Record WebSocket := mkWebSocket {
  client_state : WebSocketState;
  application_state : WebSocketState;
  sent : list Value;
  fault : option Exc;
}.

(** Sockets are shared mutable objects: the registry and the endpoint
    coroutine hold references to the same one.  A reference is an address
    in the heap of sockets. *)
Definition ws_ref := nat.

(** ** The connection registry ([ConnectionManager.__init__]) *)

Record ConnectionManager := mkManager {
  active_connections : gmap string ws_ref;
  admin_connections : gset string;
  user_roles : gmap string string;
}.

Definition ConnectionManager_init : ConnectionManager :=
  {| active_connections := ∅; admin_connections := ∅; user_roles := ∅ |}.

(** ** Documents of the store *)

(** Stored documents are the ones the handlers wrote from validated
    request models, so their enumerated fields are members of the Python
    [Enum] classes; the store keeps the [value] strings. *)
Inductive UserRole := CUSTOMER | AGENT | ADMIN.
Inductive UserStatus := ACTIVE | INACTIVE | SUSPENDED.
Inductive TicketPriority := LOW | MEDIUM | HIGH | URGENT.
Inductive TicketStatus := OPEN | IN_PROGRESS | PENDING | RESOLVED | CLOSED | CANCELLED.
Inductive TicketCategory :=
  TECHNICAL | BILLING | GENERAL | FEATURE_REQUEST | BUG_REPORT | ACCOUNT.
Inductive MessageType := TEXT | FILE | IMAGE | SYSTEM.
Inductive MessageStatus := SENT | DELIVERED | READ | FAILED.
Inductive NotificationType :=
| TICKET_CREATED | TICKET_ASSIGNED | TICKET_STATUS_CHANGED | NEW_MESSAGE
| TICKET_RESOLVED | SYSTEM_ALERT | REMINDER.

#[global] Instance UserRole_eq_dec : EqDecision UserRole.
Proof. solve_decision. Defined.
#[global] Instance UserStatus_eq_dec : EqDecision UserStatus.
Proof. solve_decision. Defined.
#[global] Instance TicketPriority_eq_dec : EqDecision TicketPriority.
Proof. solve_decision. Defined.
#[global] Instance TicketStatus_eq_dec : EqDecision TicketStatus.
Proof. solve_decision. Defined.
#[global] Instance TicketCategory_eq_dec : EqDecision TicketCategory.
Proof. solve_decision. Defined.

(** The [value] of each member. *)
Definition role_value (r : UserRole) : string :=
  match r with CUSTOMER => "customer" | AGENT => "agent" | ADMIN => "admin" end.
Definition user_status_value (s : UserStatus) : string :=
  match s with ACTIVE => "active" | INACTIVE => "inactive" | SUSPENDED => "suspended" end.
Definition priority_value (p : TicketPriority) : string :=
  match p with LOW => "low" | MEDIUM => "medium" | HIGH => "high" | URGENT => "urgent" end.
Definition status_value (s : TicketStatus) : string :=
  match s with
  | OPEN => "open" | IN_PROGRESS => "in_progress" | PENDING => "pending"
  | RESOLVED => "resolved" | CLOSED => "closed" | CANCELLED => "cancelled"
  end.
Definition notification_type_value (t : NotificationType) : string :=
  match t with
  | TICKET_CREATED => "ticket_created" | TICKET_ASSIGNED => "ticket_assigned"
  | TICKET_STATUS_CHANGED => "ticket_status_changed" | NEW_MESSAGE => "new_message"
  | TICKET_RESOLVED => "ticket_resolved" | SYSTEM_ALERT => "system_alert"
  | REMINDER => "reminder"
  end.

Record User := mkUser {
  u_id : ObjectId;
  u_username : string;
  u_email : string;
  u_full_name : string;
  u_role : UserRole;
  u_status : UserStatus;
  u_phone : option string;
  u_department : option string;
  u_avatar_url : option string;
  u_password_hash : string;
  u_created_at : nat;
  u_updated_at : nat;
  u_last_login : option nat;
}.

Record Ticket := mkTicket {
  t_id : ObjectId;
  t_title : string;
  t_description : string;
  t_category : TicketCategory;
  t_priority : TicketPriority;
  t_created_by : ObjectId;
  t_status : TicketStatus;
  t_assigned_to : option ObjectId;
  t_created_at : nat;
  t_updated_at : nat;
  t_resolved_at : option nat;
  t_resolution_note : option string;
  t_message_count : Z;
}.

Record Message := mkMessage {
  m_id : ObjectId;
  m_content : string;
  m_message_type : MessageType;
  m_ticket_id : ObjectId;
  m_sender_id : ObjectId;
  m_status : MessageStatus;
  m_created_at : nat;
  m_updated_at : nat;
  m_is_edited : bool;
  m_edited_at : option nat;
}.

(** A notification document as [create_and_broadcast_notification] writes
    it.  There is no field for a delivery state. *)
Record Notification := mkNotification {
  n_id : ObjectId;
  n_user_id : ObjectId;
  n_notification_type : string;
  n_title : string;
  n_message : string;
  n_data : Value;
  n_ticket_id : option ObjectId;
  n_priority : string;
  n_is_read : bool;
  n_read_at : option nat;
  n_created_at : nat;
}.

(** The four collections, each in insertion order, and the counter the
    fresh identifiers are drawn from. *)
Record Db := mkDb {
  users : list User;
  tickets : list Ticket;
  messages : list Message;
  notifications : list Notification;
  next_oid : N;
}.

(** *** Collection primitives *)

Section Collection.
Context {A : Type}.

(** [find_one(filter)]: the first matching document. *)
Definition find_one (f : A -> bool) (c : list A) : option A := List.find f c.

(** [count_documents(filter)]. *)
Definition count_documents (f : A -> bool) (c : list A) : nat :=
  length (List.filter f c).

(** [update_one(filter, update)]: rewrites the first match; the second
    component is [matched_count]. *)
Fixpoint update_one (f : A -> bool) (upd : A -> A) (c : list A) : list A * nat :=
  match c with
  | [] => ([], 0%nat)
  | x :: c' =>
      if f x then (upd x :: c', 1%nat)
      else let '(c'', n) := update_one f upd c' in (x :: c'', n)
  end.

(** [update_many(filter, update)]. *)
Definition update_many (f : A -> bool) (upd : A -> A) (c : list A) : list A * nat :=
  (List.map (fun x => if f x then upd x else x) c, count_documents f c).

(** [delete_one(filter)]: removes the first match; the second component
    is [deleted_count]. *)
Fixpoint delete_one (f : A -> bool) (c : list A) : list A * nat :=
  match c with
  | [] => ([], 0%nat)
  | x :: c' =>
      if f x then (c', 1%nat)
      else let '(c'', n) := delete_one f c' in (x :: c'', n)
  end.
End Collection.

(** ** The world and the coroutines *)

Record World := mkWorld {
  db : Db;
  manager : ConnectionManager;
  heap : gmap ws_ref WebSocket;
  clock : nat;
}.

Definition set_db (w : World) (d : Db) : World :=
  {| db := d; manager := manager w; heap := heap w; clock := clock w |}.
Definition set_manager (w : World) (m : ConnectionManager) : World :=
  {| db := db w; manager := m; heap := heap w; clock := clock w |}.
Definition set_heap (w : World) (h : gmap ws_ref WebSocket) : World :=
  {| db := db w; manager := manager w; heap := h; clock := clock w |}.

(** A coroutine: it returns, raises, runs a piece of synchronous code
    [Sync] on the world, or awaits one atomic operation [Await] of the store
    or of a socket, and goes on with the result.  Only [Await] is a point
    where the event loop may run another coroutine. *)
Inductive Task (A : Type) : Type :=
| Return (a : A)
| Raise (e : Exc)
| Sync {X : Type} (op : World -> World * X) (k : X -> Task A)
| Await {X : Type} (op : World -> World * X) (k : X -> Task A).
Arguments Return {A} a.
Arguments Raise {A} e.
Arguments Sync {A X} op k.
Arguments Await {A X} op k.

Fixpoint bind {A B} (t : Task A) (f : A -> Task B) : Task B :=
  match t with
  | Return a => f a
  | Raise e => Raise e
  | Sync op k => Sync op (fun x => bind (k x) f)
  | Await op k => Await op (fun x => bind (k x) f)
  end.

(** [try: t except Exception as e: h e]. *)
Fixpoint try_except {A} (t : Task A) (h : Exc -> Task A) : Task A :=
  match t with
  | Return a => Return a
  | Raise e => h e
  | Sync op k => Sync op (fun x => try_except (k x) h)
  | Await op k => Await op (fun x => try_except (k x) h)
  end.

(** [try: t finally: f]: [f] runs on both exits and the outcome of [t]
    is kept. *)
Definition try_finally {A} (t : Task A) (f : Task unit) : Task A :=
  bind (try_except (bind t (fun a => Return (inr a))) (fun e => Return (inl e)))
       (fun r => bind f (fun _ => match r with inl e => Raise e | inr a => Return a end)).

#[global] Instance Task_ret : MRet Task := @Return.
#[global] Instance Task_bind : MBind Task := λ A B f t, bind t f.

(** Synchronous code and one awaited operation. *)
Definition sync {X} (op : World -> World * X) : Task X := Sync op Return.
Definition await {X} (op : World -> World * X) : Task X := Await op Return.

(** One awaited operation on the store. *)
Definition db_op {X} (op : Db -> Db * X) : Task X :=
  await (fun w => let '(d, x) := op (db w) in (set_db w d, x)).

(** [datetime.utcnow()]. *)
Definition utcnow : Task nat := sync (fun w => (w, clock w)).

(** Running a coroutine to its end without interleaving: the final world
    and the value returned or the exception raised. *)
Fixpoint run {A} (t : Task A) (w : World) : World * (Exc + A) :=
  match t with
  | Return a => (w, inr a)
  | Raise e => (w, inl e)
  | Sync op k => let '(w', x) := op w in run (k x) w'
  | Await op k => let '(w', x) := op w in run (k x) w'
  end.

(** One turn of the event loop for a coroutine: its synchronous code up to
    and including the next awaited operation. *)
Fixpoint step {A} (t : Task A) (w : World) : World * Task A :=
  match t with
  | Sync op k => let '(w', x) := op w in step (k x) w'
  | Await op k => let '(w', x) := op w in (w', k x)
  | _ => (w, t)
  end.

(** ** Operations of a socket *)

Definition with_sent (s : WebSocket) (fs : list Value) : WebSocket :=
  {| client_state := client_state s; application_state := application_state s;
     sent := fs; fault := fault s |}.
Definition with_application_state (s : WebSocket) (a : WebSocketState) : WebSocket :=
  {| client_state := client_state s; application_state := a;
     sent := sent s; fault := fault s |}.

(** What a socket operation does to the heap: the exception it raises, if
    any.  A send or a close after the server's own close is a
    [RuntimeError] of the framework. *)
Definition socket_op (r : ws_ref) (f : WebSocket -> WebSocket) (w : World)
  : World * option Exc :=
  match heap w !! r with
  | None => (w, Some (Exception "RuntimeError"))
  | Some s =>
      match fault s with
      | Some e => (w, Some e)
      | None =>
          if bool_decide (application_state s = CONNECTED)
          then (set_heap w (<[r := f s]> (heap w)), None)
          else (w, Some (Exception "RuntimeError"))
      end
  end.

Definition raise_if (x : option Exc) : Task unit :=
  match x with Some e => Raise e | None => Return tt end.

(** [await websocket.send_text(text)]. *)
Definition send_text (r : ws_ref) (text : Value) : Task unit :=
  x ← await (socket_op r (fun s => with_sent s (sent s ++ [text])));
  raise_if x.

(** [await websocket.close(code, reason)]. *)
Definition close (r : ws_ref) : Task unit :=
  x ← await (socket_op r (fun s => with_application_state s DISCONNECTED));
  raise_if x.

(** [await websocket.send_text(json.dumps(message))]: the argument is
    evaluated first. *)
Definition send_json (r : ws_ref) (message : Value) : Task unit :=
  match json_dumps message with
  | None => Raise (Exception "TypeError")
  | Some text => send_text r text
  end.

(** [websocket.client_state.name]. *)
Definition client_state_name (r : ws_ref) : Task string :=
  sync (fun w => (w, state_name (default DISCONNECTED (client_state <$> heap w !! r)))).

(** ** [ConnectionManager] *)

Definition is_admin_role (user_role : string) : bool :=
  bool_decide (user_role ∈ ["admin"; "agent"]).

(** Lines 41 to 45 of [register_connection]: the three writes after the
    old socket was closed. *)
Definition register_writes (websocket : ws_ref) (user_id user_role : string)
    (m : ConnectionManager) : ConnectionManager :=
  {| active_connections := <[user_id := websocket]> (active_connections m);
     admin_connections :=
       if is_admin_role user_role then admin_connections m ∪ {[user_id]}
       else admin_connections m;
     user_roles := <[user_id := user_role]> (user_roles m) |}.

Definition read_connection (user_id : string) : Task (option ws_ref) :=
  sync (fun w => (w, active_connections (manager w) !! user_id)).

Definition register_connection (websocket : ws_ref) (user_id user_role : string)
  : Task unit :=
  old ← read_connection user_id;
  match old with
  | Some old_websocket => try_except (close old_websocket) (fun _ => Return tt)
  | None => Return tt
  end;;
  sync (fun w => (set_manager w (register_writes websocket user_id user_role (manager w)), tt)).

(** [disconnect] is synchronous; this is its effect on the registry. *)
Definition disconnect_registry (user_id : string) (m : ConnectionManager)
  : ConnectionManager :=
  {| active_connections := delete user_id (active_connections m);
     admin_connections := admin_connections m ∖ {[user_id]};
     user_roles := delete user_id (user_roles m) |}.

Definition disconnect (user_id : string) : Task unit :=
  sync (fun w => (set_manager w (disconnect_registry user_id (manager w)), tt)).

Definition send_personal_message (message : Value) (user_id : string) : Task unit :=
  conn ← read_connection user_id;
  match conn with
  | None => Return tt
  | Some websocket =>
      try_except
        (name ← client_state_name websocket;
         if bool_decide (name = "CONNECTED") then send_json websocket message
         else disconnect user_id)
        (fun _ => disconnect user_id)
  end.

(** The body of the two broadcast loops for one user: the list of users to
    clean up afterwards grows when the socket is closed or the send raises. *)
Definition broadcast_one (message : Value) (user_id : string) (websocket : ws_ref)
    (disconnected_users : list string) : Task (list string) :=
  try_except
    (name ← client_state_name websocket;
     if bool_decide (name = "CONNECTED")
     then send_json websocket message;; Return disconnected_users
     else Return (disconnected_users ++ [user_id])%list)
    (fun _ => Return (disconnected_users ++ [user_id])%list).

Fixpoint disconnect_all (user_ids : list string) : Task unit :=
  match user_ids with
  | [] => Return tt
  | user_id :: rest => disconnect user_id;; disconnect_all rest
  end.

Fixpoint broadcast_to_admins_loop (message : Value) (user_ids : list string)
    (disconnected_users : list string) : Task (list string) :=
  match user_ids with
  | [] => Return disconnected_users
  | user_id :: rest =>
      conn ← read_connection user_id;
      match conn with
      | None => broadcast_to_admins_loop message rest disconnected_users
      | Some websocket =>
          d ← broadcast_one message user_id websocket disconnected_users;
          broadcast_to_admins_loop message rest d
      end
  end.

(** The loop runs over a copy of the set taken on entry; the order of a
    Python set is not specified and [elements] fixes one. *)
Definition broadcast_to_admins (message : Value) : Task unit :=
  user_ids ← sync (fun w => (w, elements (admin_connections (manager w))));
  disconnected_users ← broadcast_to_admins_loop message user_ids [];
  disconnect_all disconnected_users.

Fixpoint broadcast_to_all_loop (message : Value) (items : list (string * ws_ref))
    (disconnected_users : list string) : Task (list string) :=
  match items with
  | [] => Return disconnected_users
  | (user_id, websocket) :: rest =>
      d ← broadcast_one message user_id websocket disconnected_users;
      broadcast_to_all_loop message rest d
  end.

Definition broadcast_to_all (message : Value) : Task unit :=
  items ← sync (fun w => (w, map_to_list (active_connections (manager w))));
  disconnected_users ← broadcast_to_all_loop message items [];
  disconnect_all disconnected_users.

Definition send_notification (notification_data : Value) (target_user_id : string)
  : Task unit :=
  send_personal_message
    (PDict [("type", PStr "notification"); ("data", notification_data)])
    target_user_id.




Definition is_user_connected (m : ConnectionManager) (user_id : string) : bool :=
  bool_decide (is_Some (active_connections m !! user_id)).

Definition get_connected_users (m : ConnectionManager) : list string :=
  (map_to_list (active_connections m)).*1.

Definition get_connected_admins (m : ConnectionManager) : list string :=
  elements (admin_connections m).

(** The three counters of [get_connection_info]; Python integers do not
    wrap, so the difference is taken in [Z]. *)
Record ConnectionInfo := mkInfo {
  total_connections : Z;
  admin_connections_count : Z;
  customer_connections : Z;
}.

Definition get_connection_info (m : ConnectionManager) : ConnectionInfo :=
  {| total_connections := Z.of_nat (size (active_connections m));
     admin_connections_count := Z.of_nat (size (admin_connections m));
     customer_connections :=
       Z.of_nat (size (active_connections m)) - Z.of_nat (size (admin_connections m)) |}.

(** ** The store seen from the handlers *)

Definition with_users (d : Db) (c : list User) : Db :=
  {| users := c; tickets := tickets d; messages := messages d;
     notifications := notifications d; next_oid := next_oid d |}.
Definition with_tickets (d : Db) (c : list Ticket) : Db :=
  {| users := users d; tickets := c; messages := messages d;
     notifications := notifications d; next_oid := next_oid d |}.
Definition with_messages (d : Db) (c : list Message) : Db :=
  {| users := users d; tickets := tickets d; messages := c;
     notifications := notifications d; next_oid := next_oid d |}.
Definition with_notifications (d : Db) (c : list Notification) : Db :=
  {| users := users d; tickets := tickets d; messages := messages d;
     notifications := c; next_oid := next_oid d |}.

(** [insert_one]: the driver gives the document a fresh [_id], which is
    the [inserted_id] of the result. *)
Definition take_oid (d : Db) : Db * ObjectId :=
  ({| users := users d; tickets := tickets d; messages := messages d;
      notifications := notifications d; next_oid := next_oid d + 1 |},
   fresh_oid (next_oid d)).

(** The users collection has unique indexes on [email] and on [username]
    ([database/connection.py], [_create_indexes]): a document that repeats
    the email or the username of a stored one is refused. *)
Definition duplicate_key (doc u : User) : bool :=
  bool_decide (u_email u = u_email doc) || bool_decide (u_username u = u_username doc).

(** [insert_one] into users; [None] stands for [DuplicateKeyError].  The
    driver has drawn the [_id] before the store refuses the document. *)
Definition insert_user (doc : ObjectId -> User) (d : Db) : Db * option ObjectId :=
  let '(d', oid) := take_oid d in
  if existsb (duplicate_key (doc oid)) (users d') then (d', None)
  else (with_users d' (users d' ++ [doc oid]), Some oid).
Definition insert_message (doc : ObjectId -> Message) (d : Db) : Db * ObjectId :=
  let '(d', oid) := take_oid d in (with_messages d' (messages d' ++ [doc oid]), oid).
Definition insert_notification (doc : ObjectId -> Notification) (d : Db)
  : Db * ObjectId :=
  let '(d', oid) := take_oid d in
  (with_notifications d' (notifications d' ++ [doc oid]), oid).

(** A query that reads only. *)
Definition db_read {X} (q : Db -> X) : Task X := db_op (fun d => (d, q d)).

Definition has_id {A} (id_of : A -> ObjectId) (oid : ObjectId) (x : A) : bool :=
  bool_decide (id_of x = oid).

(** ** Authenticated users ([models/user.py], [utils/auth.py]) *)

Record UserResponse := mkUserResponse {
  ur_id : ObjectId;
  ur_username : string;
  ur_email : string;
  ur_full_name : string;
  ur_role : UserRole;
  ur_status : UserStatus;
  ur_phone : option string;
  ur_department : option string;
  ur_avatar_url : option string;
  ur_created_at : nat;
  ur_updated_at : nat;
  ur_last_login : option nat;
}.

(** The [UserResponse] built from a user document. *)
Definition UserResponse_of (u : User) : UserResponse :=
  {| ur_id := u_id u; ur_username := u_username u; ur_email := u_email u;
     ur_full_name := u_full_name u; ur_role := u_role u; ur_status := u_status u;
     ur_phone := u_phone u; ur_department := u_department u;
     ur_avatar_url := u_avatar_url u; ur_created_at := u_created_at u;
     ur_updated_at := u_updated_at u; ur_last_login := u_last_login u |}.

Record UserProfile := mkUserProfile {
  up_id : ObjectId;
  up_username : string;
  up_full_name : string;
  up_role : UserRole;
  up_department : option string;
  up_avatar_url : option string;
}.

Definition UserProfile_of (u : User) : UserProfile :=
  {| up_id := u_id u; up_username := u_username u; up_full_name := u_full_name u;
     up_role := u_role u; up_department := u_department u;
     up_avatar_url := u_avatar_url u |}.

(** [check_ticket_permissions]. *)
Definition check_ticket_permissions (ticket_id : string) (current_user : UserResponse)
  : Task bool :=
  match ObjectId_of ticket_id with
  | None => Raise (Exception "InvalidId")
  | Some oid =>
      ticket ← db_read (fun d => find_one (has_id t_id oid) (tickets d));
      match ticket with
      | None => Return false
      | Some ticket =>
          if bool_decide (ur_role current_user ∈ [ADMIN; AGENT]) then Return true
          else if bool_decide (ur_role current_user = CUSTOMER)
          then Return (bool_decide (str (t_created_by ticket) = str (ur_id current_user)))
          else Return false
      end
  end.

(** ** Registration ([routes/auth.py]) *)

Record UserCreate := mkUserCreate {
  uc_username : string;
  uc_email : string;
  uc_full_name : string;
  uc_role : UserRole;
  uc_status : UserStatus;
  uc_phone : option string;
  uc_department : option string;
  uc_avatar_url : option string;
  uc_password : string;
}.

(** The document [register_user] inserts: the request's fields without
    the password, then the five keys of the [update]. *)
Definition new_user_document (user_data : UserCreate) (hashed_password : string)
    (created_at updated_at : nat) (oid : ObjectId) : User :=
  {| u_id := oid; u_username := uc_username user_data; u_email := uc_email user_data;
     u_full_name := uc_full_name user_data; u_role := uc_role user_data;
     u_status := ACTIVE; u_phone := uc_phone user_data;
     u_department := uc_department user_data; u_avatar_url := uc_avatar_url user_data;
     u_password_hash := hashed_password; u_created_at := created_at;
     u_updated_at := updated_at; u_last_login := None |}.

(** The [$or] filter of the existence check. *)
Definition same_email_or_username (user_data : UserCreate) (u : User) : bool :=
  bool_decide (u_email u = uc_email user_data)
  || bool_decide (u_username u = uc_username user_data).

(** [register_user]; [get_password_hash] is the salted hash of passlib. *)
Definition register_user (get_password_hash : string -> string) (user_data : UserCreate)
  : Task UserResponse :=
  existing_user ← db_read (fun d => find_one (same_email_or_username user_data) (users d));
  match existing_user with
  | Some existing_user =>
      if bool_decide (u_email existing_user = uc_email user_data)
      then Raise (HTTPException 400 "Email already registered")
      else Raise (HTTPException 400 "Username already taken")
  | None =>
      let hashed_password := get_password_hash (uc_password user_data) in
      created_at ← utcnow;
      updated_at ← utcnow;
      result ← db_op (insert_user
                        (new_user_document user_data hashed_password
                           created_at updated_at));
      match result with
      | None => Raise (Exception "DuplicateKeyError")
      | Some inserted_id =>
          created_user ← db_read (fun d => find_one (has_id u_id inserted_id) (users d));
          match created_user with
          | Some created_user => Return (UserResponse_of created_user)
          | None => Raise (Exception "TypeError")
          end
      end
  end.

(** ** Notification routes ([routes/notifications.py]) *)

(** The filter [{"_id": ..., "user_id": ObjectId(current_user.id)}]. *)
Definition own_notification (oid user_id : ObjectId) (n : Notification) : bool :=
  bool_decide (n_id n = oid) && bool_decide (n_user_id n = user_id).

(** The filter [{"_id": {"$in": ...}, "user_id": ObjectId(current_user.id)}]. *)
Definition own_notification_in (oids : list ObjectId) (user_id : ObjectId)
    (n : Notification) : bool :=
  bool_decide (n_id n ∈ oids) && bool_decide (n_user_id n = user_id).

(** [{"$set": {"is_read": ..., "read_at": ...}}]; [read_at] is left as it
    is when the update does not name it. *)
Definition set_read (is_read : bool) (read_at : option (option nat)) (n : Notification)
  : Notification :=
  {| n_id := n_id n; n_user_id := n_user_id n;
     n_notification_type := n_notification_type n; n_title := n_title n;
     n_message := n_message n; n_data := n_data n; n_ticket_id := n_ticket_id n;
     n_priority := n_priority n; n_is_read := is_read;
     n_read_at := default (n_read_at n) read_at; n_created_at := n_created_at n |}.

Definition mark_notification_read (notification_id : string) (current_user : UserResponse)
  : Task string :=
  match ObjectId_of notification_id with
  | None => Raise (HTTPException 400 "Invalid notification ID format")
  | Some oid =>
      now ← utcnow;
      matched_count ← db_op (fun d =>
        let '(c, n) := update_one (own_notification oid (ur_id current_user))
                         (set_read true (Some (Some now))) (notifications d) in
        (with_notifications d c, n));
      if bool_decide (matched_count = 0%nat)
      then Raise (HTTPException 404 "Notification not found")
      else Return "Notification marked as read"
  end.

Record BulkNotificationUpdate := mkBulk {
  notification_ids : list ObjectId;
  bulk_is_read : bool;
}.

(** A document counts as modified when the [$set] changes one of its
    fields. *)
Definition modified_by_set_read (is_read : bool) (read_at : option (option nat))
    (n : Notification) : bool :=
  negb (bool_decide (n_is_read n = is_read))
  || negb (bool_decide (default (n_read_at n) read_at = n_read_at n)).

(** [bulk_update_notifications]; the value returned is the
    [modified_count] that the response message prints. *)
Definition bulk_update_notifications (bulk_update : BulkNotificationUpdate)
    (current_user : UserResponse) : Task nat :=
  now ← utcnow;
  let read_at := if bulk_is_read bulk_update then Some (Some now) else None in
  let filter := own_notification_in (notification_ids bulk_update) (ur_id current_user) in
  db_op (fun d =>
    let modified_count :=
      count_documents
        (fun n => filter n && modified_by_set_read (bulk_is_read bulk_update) read_at n)
        (notifications d) in
    let '(c, _) := update_many filter (set_read (bulk_is_read bulk_update) read_at)
                     (notifications d) in
    (with_notifications d c, modified_count)).

Definition delete_notification (notification_id : string) (current_user : UserResponse)
  : Task string :=
  match ObjectId_of notification_id with
  | None => Raise (HTTPException 400 "Invalid notification ID format")
  | Some oid =>
      deleted_count ← db_op (fun d =>
        let '(c, n) := delete_one (own_notification oid (ur_id current_user))
                         (notifications d) in
        (with_notifications d c, n));
      if bool_decide (deleted_count = 0%nat)
      then Raise (HTTPException 404 "Notification not found")
      else Return "Notification deleted"
  end.

(** The notifications of the users other than [user_id], in store order. *)
Definition notifications_of_others (user_id : ObjectId) (d : Db) : list Notification :=
  List.filter (fun n => negb (bool_decide (n_user_id n = user_id))) (notifications d).

(** ** The notification service ([services/notification_service.py]) *)

Record NotificationResponse := mkNotificationResponse {
  nr_id : ObjectId;
  nr_user_id : ObjectId;
  nr_title : string;
  nr_message : string;
  nr_notification_type : NotificationType;
  nr_priority : string;
  nr_is_read : bool;
  nr_read_at : option nat;
  nr_created_at : nat;
}.

Definition notification_types : list NotificationType :=
  [TICKET_CREATED; TICKET_ASSIGNED; TICKET_STATUS_CHANGED; NEW_MESSAGE;
   TICKET_RESOLVED; SYSTEM_ALERT; REMINDER].

Definition notification_type_of_value (s : string) : option NotificationType :=
  List.find (fun t => bool_decide (notification_type_value t = s)) notification_types.

(** The values of [NotificationPriority]. *)
Definition is_notification_priority (s : string) : bool :=
  bool_decide (s ∈ ["low"; "medium"; "high"; "urgent"]).

(** The [NotificationResponse] built from a stored document; the model
    validates the two enumerated fields and [None] stands for the
    [ValidationError]. *)
Definition NotificationResponse_of (n : Notification) : option NotificationResponse :=
  match notification_type_of_value (n_notification_type n) with
  | Some ty =>
      if is_notification_priority (n_priority n)
      then Some {| nr_id := n_id n; nr_user_id := n_user_id n; nr_title := n_title n;
                   nr_message := n_message n; nr_notification_type := ty;
                   nr_priority := n_priority n; nr_is_read := n_is_read n;
                   nr_read_at := n_read_at n; nr_created_at := n_created_at n |}
      else None
  | None => None
  end.

Definition optional_datetime (t : option nat) : Value :=
  match t with Some t => PDatetime t | None => PNone end.

(** [notification_response.dict()] with ["_id"] and ["id"] overwritten by
    the printed identifier: [user_id] stays an [ObjectId] and [created_at]
    a [datetime]. *)
Definition websocket_data_of (r : NotificationResponse) : Value :=
  PDict
    (dict_set "id" (PStr (str (nr_id r)))
       (dict_set "_id" (PStr (str (nr_id r)))
          [("id", PObjectId (nr_id r));
           ("user_id", PObjectId (nr_user_id r));
           ("title", PStr (nr_title r));
           ("message", PStr (nr_message r));
           ("notification_type", PStr (notification_type_value (nr_notification_type r)));
           ("priority", PStr (nr_priority r));
           ("is_read", PBool (nr_is_read r));
           ("read_at", optional_datetime (nr_read_at r));
           ("created_at", PDatetime (nr_created_at r));
           ("metadata", PDict [])])).

(** [ObjectId(ticket_id) if ticket_id else None]: the outer [None] stands
    for [InvalidId]. *)
Definition optional_ObjectId (ticket_id : option string) : option (option ObjectId) :=
  match ticket_id with
  | None => Some None
  | Some s => if bool_decide (s = "") then Some None else Some <$> ObjectId_of s
  end.

(** [data or {}]. *)
Definition data_or_empty (data : option Value) : Value :=
  match data with
  | Some v => if truthy v then v else PDict []
  | None => PDict []
  end.

Definition new_notification_document (user_id : ObjectId)
    (notification_type : NotificationType) (title message : string) (data : option Value)
    (ticket_id : option ObjectId) (priority : string) (created_at : nat) (oid : ObjectId)
  : Notification :=
  {| n_id := oid; n_user_id := user_id;
     n_notification_type := notification_type_value notification_type;
     n_title := title; n_message := message; n_data := data_or_empty data;
     n_ticket_id := ticket_id; n_priority := priority; n_is_read := false;
     n_read_at := None; n_created_at := created_at |}.

(** [create_and_broadcast_notification]; its [except] clause logs and
    raises again. *)
Definition create_and_broadcast_notification (user_id : string)
    (notification_type : NotificationType) (title message : string)
    (data : option Value) (ticket_id : option string) (priority : string)
  : Task NotificationResponse :=
  match ObjectId_of user_id, optional_ObjectId ticket_id with
  | Some uid, Some tid =>
      created_at ← utcnow;
      inserted_id ← db_op (insert_notification
                             (new_notification_document uid notification_type title
                                message data tid priority created_at));
      created_notification ←
        db_read (fun d => find_one (has_id n_id inserted_id) (notifications d));
      match created_notification with
      | None => Raise (Exception "AttributeError")
      | Some created_notification =>
          match NotificationResponse_of created_notification with
          | None => Raise (Exception "ValidationError")
          | Some notification_response =>
              connected ← sync (fun w => (w, is_user_connected (manager w) user_id));
              (if connected : bool
               then send_notification (websocket_data_of notification_response) user_id
               else Return tt);;
              Return notification_response
          end
      end
  | _, _ => Raise (Exception "InvalidId")
  end.

(** [s.title()] on ASCII text. *)
Definition is_alpha (c : ascii) : bool :=
  let n := nat_of_ascii c in
  bool_decide (65 ≤ n ≤ 90)%nat || bool_decide (97 ≤ n ≤ 122)%nat.
Definition upper_ascii (c : ascii) : ascii :=
  let n := nat_of_ascii c in
  if bool_decide (97 ≤ n ≤ 122)%nat then ascii_of_nat (n - 32) else c.
Fixpoint title_from (inside_word : bool) (s : string) : string :=
  match s with
  | EmptyString => EmptyString
  | String c s' =>
      String (if inside_word then lower_ascii c else upper_ascii c)
             (title_from (is_alpha c) s')
  end.
Definition py_title (s : string) : string := title_from false s.

Definition updated_by_data (key id : string) (u : User) : string * Value :=
  (key, PDict [("id", PStr id); ("name", PStr (u_full_name u));
               ("username", PStr (u_username u))]).

(** [notify_ticket_status_change]: every exception is logged and dropped. *)
Definition notify_ticket_status_change (ticket_id old_status new_status updated_by_id : string)
  : Task unit :=
  try_except
    (match ObjectId_of ticket_id with
     | None => Raise (Exception "InvalidId")
     | Some tid =>
         ticket ← db_read (fun d => find_one (has_id t_id tid) (tickets d));
         match ObjectId_of updated_by_id with
         | None => Raise (Exception "InvalidId")
         | Some bid =>
             updated_by ← db_read (fun d => find_one (has_id u_id bid) (users d));
             match ticket, updated_by with
             | Some ticket, Some updated_by =>
                 let title := "Ticket Status Updated: " +:+ py_title new_status in
                 let message :=
                   "Ticket '" +:+ t_title ticket +:+ "' status changed from "
                   +:+ old_status +:+ " to " +:+ new_status in
                 let data :=
                   PDict [("ticket_id", PStr ticket_id);
                          ("ticket_title", PStr (t_title ticket));
                          ("old_status", PStr old_status);
                          ("new_status", PStr new_status);
                          updated_by_data "updated_by" updated_by_id updated_by] in
                 let creator_id := str (t_created_by ticket) in
                 create_and_broadcast_notification creator_id TICKET_STATUS_CHANGED
                   title message (Some data) (Some ticket_id) "medium";;
                 match t_assigned_to ticket with
                 | Some assigned_to =>
                     if bool_decide (str assigned_to ≠ creator_id)
                     then create_and_broadcast_notification (str assigned_to)
                            TICKET_STATUS_CHANGED title message (Some data)
                            (Some ticket_id) "medium";;
                          Return tt
                     else Return tt
                 | None => Return tt
                 end
             | _, _ => Return tt
             end
         end
     end)
    (fun _ => Return tt).

(** [notify_ticket_resolved]. *)
Definition notify_ticket_resolved (ticket_id resolved_by_id : string)
    (resolution_note : option string) : Task unit :=
  try_except
    (match ObjectId_of ticket_id with
     | None => Raise (Exception "InvalidId")
     | Some tid =>
         ticket ← db_read (fun d => find_one (has_id t_id tid) (tickets d));
         match ObjectId_of resolved_by_id with
         | None => Raise (Exception "InvalidId")
         | Some bid =>
             resolved_by ← db_read (fun d => find_one (has_id u_id bid) (users d));
             match ticket, resolved_by with
             | Some ticket, Some resolved_by =>
                 let message :=
                   "Your ticket '" +:+ t_title ticket +:+ "' has been resolved by "
                   +:+ u_full_name resolved_by in
                 let message :=
                   match resolution_note with
                   | Some note =>
                       if bool_decide (note = "") then message
                       else message +:+ ". Resolution: " +:+ note
                   | None => message
                   end in
                 let data :=
                   PDict [("ticket_id", PStr ticket_id);
                          ("ticket_title", PStr (t_title ticket));
                          ("ticket_status", PStr (status_value (t_status ticket)));
                          ("ticket_priority", PStr (priority_value (t_priority ticket)));
                          ("resolution_note",
                           match resolution_note with Some n => PStr n | None => PNone end);
                          updated_by_data "resolved_by" resolved_by_id resolved_by] in
                 create_and_broadcast_notification (str (t_created_by ticket))
                   TICKET_RESOLVED "Ticket Resolved" message (Some data)
                   (Some ticket_id) "high";;
                 Return tt
             | _, _ => Return tt
             end
         end
     end)
    (fun _ => Return tt).

(** ** Ticket routes ([routes/tickets.py]) *)

(** [Depends(get_agent_or_admin_user)]: the role check of [require_role]. *)
Definition require_role (required_roles : list UserRole) (current_user : UserResponse)
  : Task unit :=
  if bool_decide (ur_role current_user ∈ required_roles) then Return tt
  else Raise (HTTPException 403 "Insufficient permissions").










(** [$lookup] into users and the first element of its result. *)
Definition lookup_profile (d : Db) (oid : option ObjectId) : option UserProfile :=
  match oid with
  | Some o => UserProfile_of <$> find_one (has_id u_id o) (users d)
  | None => None
  end.



(** [math.ceil(total / per_page)]: the true quotient, then its ceiling.
    Python rounds the quotient to a double first; for a count below
    [2^53 / 100] and [per_page <= 100] the rounding cannot reach the next
    integer, so the quotient is taken exactly. *)
Definition math_ceil_div (total per_page : Z) : Z :=
  Qceiling (inject_Z total / inject_Z per_page).


(** [TicketResponse]: the fields of the document, with the two user
    references replaced by profiles. *)
Record TicketResponse := mkTicketResponse {
  tr_ticket : Ticket;
  tr_created_by : option UserProfile;
  tr_assigned_to : option UserProfile;
}.

Definition get_ticket (ticket_id : string) (current_user : UserResponse)
  : Task TicketResponse :=
  if negb (ObjectId_is_valid ticket_id)
  then Raise (HTTPException 400 "Invalid ticket ID format")
  else
    has_permission ← check_ticket_permissions ticket_id current_user;
    if negb has_permission
    then Raise (HTTPException 403 "Not authorized to access this ticket")
    else
      match ObjectId_of ticket_id with
      | None => Raise (Exception "InvalidId")
      | Some oid =>
          result ← db_read (fun d =>
                      (fun t => {| tr_ticket := t;
                                   tr_created_by := lookup_profile d (Some (t_created_by t));
                                   tr_assigned_to := lookup_profile d (t_assigned_to t) |})
                      <$> find_one (has_id t_id oid) (tickets d));
          match result with
          | None => Raise (HTTPException 404 "Ticket not found")
          | Some ticket_response => Return ticket_response
          end
      end.

Record TicketUpdate := mkTicketUpdate {
  tu_title : option string;
  tu_description : option string;
  tu_category : option TicketCategory;
  tu_priority : option TicketPriority;
  tu_status : option TicketStatus;
  tu_assigned_to : option ObjectId;
}.

(** [update_data] is empty when every field of the request is [None]. *)
Definition no_update (u : TicketUpdate) : bool :=
  match tu_title u, tu_description u, tu_category u, tu_priority u, tu_status u,
        tu_assigned_to u with
  | None, None, None, None, None, None => true
  | _, _, _, _, _, _ => false
  end.

(** [{"$set": update_data}] with [updated_at], and [resolved_at] when the
    new status is [RESOLVED]. *)
Definition set_ticket_fields (u : TicketUpdate) (updated_at : nat)
    (resolved_at : option nat) (t : Ticket) : Ticket :=
  {| t_id := t_id t;
     t_title := default (t_title t) (tu_title u);
     t_description := default (t_description t) (tu_description u);
     t_category := default (t_category t) (tu_category u);
     t_priority := default (t_priority t) (tu_priority u);
     t_created_by := t_created_by t;
     t_status := default (t_status t) (tu_status u);
     t_assigned_to :=
       match tu_assigned_to u with Some a => Some a | None => t_assigned_to t end;
     t_created_at := t_created_at t;
     t_updated_at := updated_at;
     t_resolved_at :=
       match resolved_at with Some r => Some r | None => t_resolved_at t end;
     t_resolution_note := t_resolution_note t;
     t_message_count := t_message_count t |}.

Definition update_ticket (ticket_id : string) (ticket_update : TicketUpdate)
    (current_user : UserResponse) : Task TicketResponse :=
  if negb (ObjectId_is_valid ticket_id)
  then Raise (HTTPException 400 "Invalid ticket ID format")
  else
    has_permission ← check_ticket_permissions ticket_id current_user;
    if negb has_permission
    then Raise (HTTPException 403 "Not authorized to update this ticket")
    else
      match ObjectId_of ticket_id with
      | None => Raise (Exception "InvalidId")
      | Some oid =>
          original_ticket ← db_read (fun d => find_one (has_id t_id oid) (tickets d));
          match original_ticket with
          | None => Raise (HTTPException 404 "Ticket not found")
          | Some original_ticket =>
              if no_update ticket_update then get_ticket ticket_id current_user
              else
                updated_at ← utcnow;
                let old_status := t_status original_ticket in
                let new_status := tu_status ticket_update in
                resolved_at ←
                  (if bool_decide (new_status = Some RESOLVED)
                   then now ← utcnow; Return (Some now)
                   else Return None);
                matched_count ← db_op (fun d =>
                  let '(c, n) := update_one (has_id t_id oid)
                                   (set_ticket_fields ticket_update updated_at resolved_at)
                                   (tickets d) in
                  (with_tickets d c, n));
                if bool_decide (matched_count = 0%nat)
                then Raise (HTTPException 404 "Ticket not found")
                else
                  match new_status with
                  | Some new_status =>
                      if bool_decide (old_status ≠ new_status)
                      then
                        if bool_decide (new_status = RESOLVED)
                        then notify_ticket_resolved ticket_id (str (ur_id current_user)) None
                        else notify_ticket_status_change ticket_id
                               (status_value old_status) (status_value new_status)
                               (str (ur_id current_user))
                      else Return tt
                  | None => Return tt
                  end;;
                  get_ticket ticket_id current_user
          end
      end.

(** [delete_ticket]: only the ticket document is removed. *)
Definition delete_ticket (ticket_id : string) (current_user : UserResponse) : Task unit :=
  require_role [AGENT; ADMIN] current_user;;
  match ObjectId_of ticket_id with
  | None => Raise (HTTPException 400 "Invalid ticket ID format")
  | Some oid =>
      deleted_count ← db_op (fun d =>
        let '(c, n) := delete_one (has_id t_id oid) (tickets d) in (with_tickets d c, n));
      if bool_decide (deleted_count = 0%nat)
      then Raise (HTTPException 404 "Ticket not found")
      else Return tt
  end.

(** ** Chat routes ([routes/chat.py]) *)

Record MessageCreate := mkMessageCreate {
  mc_content : string;
  mc_message_type : MessageType;
  mc_ticket_id : ObjectId;
}.

Record MessageResponse := mkMessageResponse {
  mr_message : Message;
  mr_sender : UserProfile;
}.

Definition UserProfile_of_response (u : UserResponse) : UserProfile :=
  {| up_id := ur_id u; up_username := ur_username u; up_full_name := ur_full_name u;
     up_role := ur_role u; up_department := ur_department u;
     up_avatar_url := ur_avatar_url u |}.

Definition new_message_document (message_data : MessageCreate) (sender_id : ObjectId)
    (created_at updated_at : nat) (oid : ObjectId) : Message :=
  {| m_id := oid; m_content := mc_content message_data;
     m_message_type := mc_message_type message_data;
     m_ticket_id := mc_ticket_id message_data; m_sender_id := sender_id;
     m_status := SENT; m_created_at := created_at; m_updated_at := updated_at;
     m_is_edited := false; m_edited_at := None |}.

(** [{"$inc": {"message_count": k}}], with [updated_at] when the update
    sets it. *)
Definition inc_message_count (k : Z) (updated_at : option nat) (t : Ticket) : Ticket :=
  {| t_id := t_id t; t_title := t_title t; t_description := t_description t;
     t_category := t_category t; t_priority := t_priority t;
     t_created_by := t_created_by t; t_status := t_status t;
     t_assigned_to := t_assigned_to t; t_created_at := t_created_at t;
     t_updated_at := default (t_updated_at t) updated_at;
     t_resolved_at := t_resolved_at t; t_resolution_note := t_resolution_note t;
     t_message_count := (t_message_count t + k)%Z |}.

Definition send_message (message_data : MessageCreate) (current_user : UserResponse)
  : Task MessageResponse :=
  has_permission ←
    check_ticket_permissions (str (mc_ticket_id message_data)) current_user;
  if negb has_permission
  then Raise (HTTPException 403 "Not authorized to send messages to this ticket")
  else
    created_at ← utcnow;
    updated_at ← utcnow;
    inserted_id ← db_op (insert_message
                           (new_message_document message_data (ur_id current_user)
                              created_at updated_at));
    now ← utcnow;
    db_op (fun d =>
      let '(c, n) := update_one (has_id t_id (mc_ticket_id message_data))
                       (inc_message_count 1 (Some now)) (tickets d) in
      (with_tickets d c, n));;
    created_message ← db_read (fun d => find_one (has_id m_id inserted_id) (messages d));
    match created_message with
    | None => Raise (Exception "TypeError")
    | Some created_message =>
        Return {| mr_message := created_message;
                  mr_sender := UserProfile_of_response current_user |}
    end.

Definition delete_message (message_id : string) (current_user : UserResponse) : Task unit :=
  match ObjectId_of message_id with
  | None => Raise (HTTPException 400 "Invalid message ID format")
  | Some oid =>
      message ← db_read (fun d => find_one (has_id m_id oid) (messages d));
      match message with
      | None => Raise (HTTPException 404 "Message not found")
      | Some message =>
          if bool_decide (str (m_sender_id message) ≠ str (ur_id current_user))
          then Raise (HTTPException 403 "Not authorized to delete this message")
          else
            db_op (fun d =>
              let '(c, n) := delete_one (has_id m_id oid) (messages d) in
              (with_messages d c, n));;
            db_op (fun d =>
              let '(c, n) := update_one (has_id t_id (m_ticket_id message))
                               (inc_message_count (-1) None) (tickets d) in
              (with_tickets d c, n));;
            Return tt
      end
  end.

(** ** The WebSocket endpoint ([websocket/routes.py]) *)

(** [await websocket.accept()]. *)
Definition accept (r : ws_ref) : Task unit :=
  x ← await (fun w =>
         match heap w !! r with
         | None => (w, Some (Exception "RuntimeError"))
         | Some s =>
             match fault s with
             | Some e => (w, Some e)
             | None =>
                 if bool_decide (application_state s = CONNECTING)
                 then (set_heap w (<[r := {| client_state := CONNECTED;
                                             application_state := CONNECTED;
                                             sent := sent s; fault := fault s |}]> (heap w)),
                       None)
                 else (w, Some (Exception "RuntimeError"))
             end
         end);
  raise_if x.

(** [token.count('.')]. *)
Fixpoint count_dots (s : string) : nat :=
  match s with
  | EmptyString => 0
  | String c s' => (if bool_decide (c = "."%char) then 1 else 0) + count_dots s'
  end.

(** [get_current_user_websocket].  [jwt_decode token] is the ["sub"] of
    the decoded payload, or [None] for a [JWTError].  The last [except]
    clause catches the [HTTPException]s raised in the body as well. *)
Definition get_current_user_websocket (jwt_decode : string -> option (option string))
    (token : string) : Task UserResponse :=
  try_except
    (if bool_decide (token = "") || negb (bool_decide (count_dots token = 2%nat))
     then Raise (HTTPException 401 "Invalid token format")
     else
       match jwt_decode token with
       | None => Raise JWTError
       | Some None => Raise (HTTPException 401 "Invalid token")
       | Some (Some user_id) =>
           user ← try_except
                    (match ObjectId_of user_id with
                     | None => Raise (Exception "InvalidId")
                     | Some oid => db_read (fun d => find_one (has_id u_id oid) (users d))
                     end)
                    (fun _ => Return None);
           match user with
           | None => Raise (HTTPException 404 "User not found")
           | Some user =>
               if bool_decide (u_status user ≠ ACTIVE)
               then Raise (HTTPException 400 "Inactive user")
               else Return (UserResponse_of user)
           end
       end)
    (fun e =>
       match e with
       | JWTError => Raise (HTTPException 401 "Invalid token")
       | _ => Raise (HTTPException 500 "Authentication error")
       end).

Definition is_str (s : string) (v : Value) : bool :=
  match v with PStr s' => bool_decide (s' = s) | _ => false end.

Definition error_frame (detail : string) (code : nat) : Value :=
  PDict [("type", PStr "error");
         ("data", PDict [("message", PStr detail); ("code", PInt (Z.of_nat code))])].

Definition connection_established_frame (current_user : UserResponse) : Value :=
  PDict [("type", PStr "connection_established");
         ("data", PDict [("user_id", PStr (str (ur_id current_user)));
                         ("username", PStr (ur_username current_user));
                         ("role", PStr (role_value (ur_role current_user)));
                         ("message", PStr "WebSocket connection established successfully")])].

(** [handle_notification_read]: the confirmation is sent whether or not a
    notification matched; every exception is logged and dropped. *)
Definition handle_notification_read (notification_id : Value) (current_user : UserResponse)
  : Task unit :=
  try_except
    (match notification_id with
     | PStr s =>
         match ObjectId_of s with
         | None => Raise (Exception "InvalidId")
         | Some oid =>
             now ← utcnow;
             db_op (fun d =>
               let '(c, n) := update_one (own_notification oid (ur_id current_user))
                                (set_read true (Some (Some now))) (notifications d) in
               (with_notifications d c, n));;
             send_personal_message
               (PDict [("type", PStr "notification_read_confirmed");
                       ("data", PDict [("notification_id", notification_id)])])
               (str (ur_id current_user))
         end
     | _ => Raise (Exception "TypeError")
     end)
    (fun _ => Return tt).

(** The [while True] loop over the text frames the client sends
    ([incoming]; [None] is a text that [json.loads] rejects).  When the
    client has gone, [receive_text] raises [WebSocketDisconnect]. *)
Fixpoint receive_loop (websocket : ws_ref) (current_user : UserResponse)
    (incoming : list (option Value)) : Task unit :=
  match incoming with
  | [] => Raise WebSocketDisconnect
  | None :: _ => Raise (Exception "JSONDecodeError")
  | Some message :: rest =>
      match value_get "type" message with
      | None => Raise (Exception "AttributeError")
      | Some type =>
          (if is_str "ping" type
           then send_json websocket
                  (PDict [("type", PStr "pong");
                          ("timestamp", default PNone (value_get "timestamp" message))])
           else if is_str "mark_notification_read" type
           then
             let notification_id := default PNone (value_get "notification_id" message) in
             if truthy notification_id
             then handle_notification_read notification_id current_user
             else Return tt
           else Return tt);;
          receive_loop websocket current_user rest
      end
  end.

(** The outer [except Exception] once the connection is accepted. *)
Definition internal_error_reply (websocket : ws_ref) : Task unit :=
  try_except
    (send_json websocket (error_frame "Internal server error" 500);;
     close websocket)
    (fun _ => Return tt).

(** [websocket_endpoint] for a client that sends [incoming] and leaves.
    The [finally] clause deregisters the user when, and only when,
    authentication had succeeded. *)
Definition websocket_endpoint (jwt_decode : string -> option (option string))
    (websocket : ws_ref) (token : string) (incoming : list (option Value)) : Task unit :=
  connection_accepted ← try_except (accept websocket;; Return true)
                                   (fun _ => Return false);
  if negb connection_accepted then Return tt
  else
    auth ← try_except
              (current_user ← get_current_user_websocket jwt_decode token;
               Return (inr current_user))
              (fun e => Return (inl e));
    match auth with
    | inl (HTTPException status_code detail) =>
        try_except
          (send_json websocket (error_frame detail status_code);;
           close websocket)
          (fun _ => internal_error_reply websocket)
    | inl _ => internal_error_reply websocket
    | inr current_user =>
        try_except
          (register_connection websocket (str (ur_id current_user))
             (role_value (ur_role current_user));;
           send_json websocket (connection_established_frame current_user);;
           try_except
             (receive_loop websocket current_user incoming)
             (fun e =>
                match e with
                | WebSocketDisconnect => Return tt
                | _ => Raise e
                end))
          (fun _ => internal_error_reply websocket);;
        disconnect (str (ur_id current_user))
    end.

(** *** The frames of the server *)






(** ** Requests served one after the other, or interleaved *)

Inductive Request :=
| PostMessage (message_data : MessageCreate) (current_user : UserResponse)
| DeleteMessage (message_id : string) (current_user : UserResponse)
| PutTicket (ticket_id : string) (ticket_update : TicketUpdate) (current_user : UserResponse)
| DeleteTicket (ticket_id : string) (current_user : UserResponse).

(** The coroutine of a request, its response dropped. *)
Definition handler (r : Request) : Task unit :=
  match r with
  | PostMessage message_data current_user =>
      send_message message_data current_user;; Return tt
  | DeleteMessage message_id current_user => delete_message message_id current_user
  | PutTicket ticket_id ticket_update current_user =>
      update_ticket ticket_id ticket_update current_user;; Return tt
  | DeleteTicket ticket_id current_user => delete_ticket ticket_id current_user
  end.

(** Each request runs to its end before the next one starts. *)
Definition serve_in_turn (requests : list Request) (w : World) : World :=
  foldl (fun w r => (run (handler r) w).1) w requests.

(** The event loop with several requests in flight: [turns] names, turn by
    turn, the coroutine that runs up to and including its next awaited
    operation. *)
Fixpoint event_loop (turns : list nat) (pool : list (Task unit)) (w : World)
  : World * list (Task unit) :=
  match turns with
  | [] => (w, pool)
  | i :: rest =>
      match pool !! i with
      | Some t => let '(w', t') := step t w in event_loop rest (<[i := t']> pool) w'
      | None => event_loop rest pool w
      end
  end.

(** The outcome of a coroutine that has come to its end. *)
Definition outcome {A} (t : Task A) : option (Exc + A) :=
  match t with
  | Return a => Some (inr a)
  | Raise e => Some (inl e)
  | _ => None
  end.

(** *** References between the collections *)

Definition ticket_exists (d : Db) (oid : ObjectId) : Prop :=
  ∃ t, t ∈ tickets d ∧ t_id t = oid.

(** [len] of the messages that refer to the ticket. *)
Definition messages_of_ticket (d : Db) (oid : ObjectId) : Z :=
  Z.of_nat (count_documents (fun m => bool_decide (m_ticket_id m = oid)) (messages d)).

(** Every message and every notification with a ticket refers to a stored
    ticket, and every ticket counts its messages. *)
Definition references_intact (d : Db) : Prop :=
  (∀ m, m ∈ messages d -> ticket_exists d (m_ticket_id m))
  ∧ (∀ n oid, n ∈ notifications d -> n_ticket_id n = Some oid -> ticket_exists d oid)
  ∧ (∀ t, t ∈ tickets d -> t_message_count t = messages_of_ticket d (t_id t)).

(** *** A small help desk *)

Definition example_customer : User :=
  {| u_id := fresh_oid 1; u_username := "carol"; u_email := "carol@example.org";
     u_full_name := "Carol Customer"; u_role := CUSTOMER; u_status := ACTIVE;
     u_phone := None; u_department := None; u_avatar_url := None;
     u_password_hash := "x"; u_created_at := 1; u_updated_at := 1;
     u_last_login := None |}.

Definition example_agent : User :=
  {| u_id := fresh_oid 2; u_username := "alan"; u_email := "alan@example.org";
     u_full_name := "Alan Agent"; u_role := AGENT; u_status := ACTIVE;
     u_phone := None; u_department := None; u_avatar_url := None;
     u_password_hash := "y"; u_created_at := 1; u_updated_at := 1;
     u_last_login := None |}.

Definition example_ticket (n : N) (created_at : nat) : Ticket :=
  {| t_id := fresh_oid n; t_title := "Printer is on fire";
     t_description := "Smoke comes out of the printer";
     t_category := TECHNICAL; t_priority := HIGH; t_created_by := fresh_oid 1;
     t_status := OPEN; t_assigned_to := None; t_created_at := created_at;
     t_updated_at := created_at; t_resolved_at := None; t_resolution_note := None;
     t_message_count := 0 |}.

Definition example_db : Db :=
  {| users := [example_customer; example_agent];
     tickets := [example_ticket 3 2; example_ticket 4 3];
     messages := []; notifications := []; next_oid := 5 |}.

Definition example_world : World :=
  {| db := example_db; manager := ConnectionManager_init; heap := ∅; clock := 10 |}.

Definition carol : UserResponse := UserResponse_of example_customer.
Definition alan : UserResponse := UserResponse_of example_agent.

Definition hello (n : N) : MessageCreate :=
  {| mc_content := "hello"; mc_message_type := TEXT; mc_ticket_id := fresh_oid n |}.

Definition close_it : TicketUpdate :=
  {| tu_title := None; tu_description := None; tu_category := None;
     tu_priority := None; tu_status := Some CLOSED; tu_assigned_to := None |}.


(** Carol's browser: a socket that has just knocked, and one that is open
    and registered. *)
Definition new_socket : WebSocket :=
  {| client_state := CONNECTING; application_state := CONNECTING; sent := [];
     fault := None |}.

Definition open_socket : WebSocket :=
  {| client_state := CONNECTED; application_state := CONNECTED; sent := [];
     fault := None |}.

Definition knocking_world : World :=
  {| db := example_db; manager := ConnectionManager_init;
     heap := {[7%nat := new_socket]}; clock := 10 |}.

Definition connected_world : World :=
  {| db := example_db;
     manager := register_writes 7%nat (str (fresh_oid 1)) "customer" ConnectionManager_init;
     heap := {[7%nat := open_socket]}; clock := 10 |}.

(** A token service that knows one token, Carol's. *)
Definition example_jwt_decode (token : string) : option (option string) :=
  if bool_decide (token = "carol.jwt.token") then Some (Some (str (fresh_oid 1)))
  else None.

Definition ping : Value := PDict [("type", PStr "ping"); ("timestamp", PInt 42)].


Definition dave : UserCreate :=
  {| uc_username := "dave"; uc_email := "dave@example.org";
     uc_full_name := "Dave Newcomer"; uc_role := CUSTOMER; uc_status := ACTIVE;
     uc_phone := None; uc_department := None; uc_avatar_url := None;
     uc_password := "Secret123" |}.

(** ** Notions used by the properties *)

(** A coroutine keeps a property of the world when each of its operations
    does: the property then holds at every point where the coroutine is
    suspended, and at its end. *)
Fixpoint preserves {A} (P : World -> Prop) (t : Task A) : Prop :=
  match t with
  | Return _ | Raise _ => True
  | Sync op k | Await op k =>
      (∀ w, P w -> P (op w).1) ∧ (∀ x, preserves P (k x))
  end.

(** The world after the best-effort close in [register_connection]. *)
Definition old_connection_closed (user_id : string) (w : World) : World :=
  match active_connections (manager w) !! user_id with
  | Some old_websocket =>
      (socket_op old_websocket (fun s => with_application_state s DISCONNECTED) w).1
  | None => w
  end.

(** The users in [admin_connections] are connected, and the users with a
    recorded role are exactly the connected ones. *)
Definition registry_consistent (m : ConnectionManager) : Prop :=
  admin_connections m ⊆ dom (active_connections m)
  ∧ dom (user_roles m) = dom (active_connections m).

(** The calls that change the registry. *)
Inductive RegistryCall :=
| CallRegister (websocket : ws_ref) (user_id user_role : string)
| CallDisconnect (user_id : string)
| CallSendPersonalMessage (message : Value) (user_id : string)
| CallBroadcastToAdmins (message : Value)
| CallBroadcastToAll (message : Value).

Definition call (c : RegistryCall) : Task unit :=
  match c with
  | CallRegister websocket user_id user_role =>
      register_connection websocket user_id user_role
  | CallDisconnect user_id => disconnect user_id
  | CallSendPersonalMessage message user_id => send_personal_message message user_id
  | CallBroadcastToAdmins message => broadcast_to_admins message
  | CallBroadcastToAll message => broadcast_to_all message
  end.

(** The states of the registry that the calls can produce from the empty
    registry of [ConnectionManager()].  Between two calls the environment
    may do anything to the sockets, the store and the clock. *)
Inductive reachable : World -> Prop :=
| reachable_init d h c :
    reachable {| db := d; manager := ConnectionManager_init; heap := h; clock := c |}
| reachable_call c w :
    reachable w -> reachable (run (call c) w).1
| reachable_env w d h c :
    reachable w -> reachable {| db := d; manager := manager w; heap := h; clock := c |}.

Definition consistent_world (w : World) : Prop := registry_consistent (manager w).







(** The world once the document is stored. *)
Definition notification_stored (uid : ObjectId) (notification_type : NotificationType)
    (title message : string) (data : option Value) (tid : option ObjectId)
    (priority : string) (w : World) : World :=
  set_db w (insert_notification
              (new_notification_document uid notification_type title message data tid
                 priority (clock w)) (db w)).1.


(** Two browser tabs of Carol knocking at once. *)
Definition two_tabs_world : World :=
  {| db := example_db; manager := ConnectionManager_init;
     heap := {[7%nat := new_socket; 8%nat := new_socket]}; clock := 10 |}.

(** ** Delivery of a broadcast *)

(** A socket that takes a frame: the client is there, the transport has
    no fault and the server has not closed. *)
Definition healthy (w : World) (r : ws_ref) : bool :=
  match heap w !! r with
  | Some s =>
      bool_decide (client_state s = CONNECTED) && bool_decide (fault s = None)
      && bool_decide (application_state s = CONNECTED)
  | None => false
  end.

(** A send of [message] on [r] goes through when [json.dumps] accepts the
    message and the socket takes the frame. *)
Definition accepted (message : Value) (w : World) (r : ws_ref) : bool :=
  healthy w r && json_serializable message.

(** The world once [message] was handed to [r]. *)
Definition deliver (message : Value) (w : World) (r : ws_ref) : World :=
  (socket_op r (fun s => with_sent s (sent s ++ [message])) w).1.

(** The sockets [broadcast_to_admins] sends on, in the order of its loop,
    and the users it collects for the cleanup. *)
Definition admin_targets (message : Value) (w : World) (user_ids : list string)
  : list ws_ref :=
  omap (fun u => match active_connections (manager w) !! u with
                 | Some r => if accepted message w r then Some r else None
                 | None => None
                 end) user_ids.

Definition admin_dropped (message : Value) (w : World) (user_ids : list string)
  : list string :=
  List.filter (fun u => match active_connections (manager w) !! u with
                        | Some r => negb (accepted message w r)
                        | None => false
                        end) user_ids.

(** The registry after [disconnect] for each of the users. *)
Definition disconnect_each (user_ids : list string) (m : ConnectionManager)
  : ConnectionManager :=
  foldl (fun m u => disconnect_registry u m) m user_ids.

(** Alan, an agent, is connected on socket 7; socket 8 is a second
    browser tab of his. *)
Definition agent_world : World :=
  {| db := example_db;
     manager := register_writes 7%nat (str (fresh_oid 2)) "agent" ConnectionManager_init;
     heap := {[7%nat := open_socket; 8%nat := open_socket]}; clock := 10 |}.

Definition new_ticket_alert : Value :=
  PDict [("type", PStr "new_ticket"); ("data", PDict [("id", PStr (str (fresh_oid 3)))])].

(** The frame that confirms a [mark_notification_read] message. *)
Definition notification_read_confirmed_frame (notification_id : Value) : Value :=
  PDict [("type", PStr "notification_read_confirmed");
         ("data", PDict [("notification_id", notification_id)])].

(** Everything but the socket [websocket] is as in [w]. *)
Definition only_socket_touched (websocket : ws_ref) (w w' : World) : Prop :=
  manager w' = manager w ∧ db w' = db w
  ∧ ∀ r, r ≠ websocket -> heap w' !! r = heap w !! r.

(** Notifications in the store: two of Carol's, one of them read, and one
    of Alan's. *)
Definition example_notification (n user : N) (is_read : bool) (created_at : nat)
  : Notification :=
  {| n_id := fresh_oid n; n_user_id := fresh_oid user;
     n_notification_type := "system_alert"; n_title := "Maintenance";
     n_message := "Tonight at ten"; n_data := PDict []; n_ticket_id := None;
     n_priority := "high"; n_is_read := is_read;
     n_read_at := if is_read then Some created_at else None;
     n_created_at := created_at |}.

Definition inbox_db : Db :=
  {| users := users example_db; tickets := tickets example_db; messages := [];
     notifications := [example_notification 5 1 false 4; example_notification 6 2 false 5;
                       example_notification 7 1 true 6];
     next_oid := 8 |}.

Definition inbox_world : World :=
  {| db := inbox_db; manager := manager connected_world; heap := heap connected_world;
     clock := 10 |}.

(** * Properties *)

(** ** Running composed coroutines *)

Lemma run_bind {A B} (t : Task A) (f : A -> Task B) (w : World) :
  run (t ≫= f) w =
  match run t w with
  | (w', inr a) => run (f a) w'
  | (w', inl e) => (w', inl e)
  end.
Proof.
  unfold mbind, Task_bind. revert w.
  induction t as [a|e|X op k IH|X op k IH]; intros w; simpl; try done.
  - destruct (op w) as [w' x]. apply IH.
  - destruct (op w) as [w' x]. apply IH.
Qed.

Lemma run_try_except {A} (t : Task A) (h : Exc -> Task A) (w : World) :
  run (try_except t h) w =
  match run t w with
  | (w', inr a) => (w', inr a)
  | (w', inl e) => run (h e) w'
  end.
Proof.
  revert w.
  induction t as [a|e|X op k IH|X op k IH]; intros w; simpl; try done.
  - destruct (op w) as [w' x]. apply IH.
  - destruct (op w) as [w' x]. apply IH.
Qed.

Lemma preserves_bind {A B} P (t : Task A) (f : A -> Task B) :
  preserves P t -> (∀ a, preserves P (f a)) -> preserves P (t ≫= f).
Proof.
  unfold mbind, Task_bind. intros Ht Hf.
  induction t as [a|e|X op k IH|X op k IH]; simpl in *; try done.
  - destruct Ht as [Hop Hk]. split; [done|]. intros x. by apply IH.
  - destruct Ht as [Hop Hk]. split; [done|]. intros x. by apply IH.
Qed.

Lemma preserves_try_except {A} P (t : Task A) (h : Exc -> Task A) :
  preserves P t -> (∀ e, preserves P (h e)) -> preserves P (try_except t h).
Proof.
  intros Ht Hh.
  induction t as [a|e|X op k IH|X op k IH]; simpl in *; try done.
  - destruct Ht as [Hop Hk]. split; [done|]. intros x. by apply IH.
  - destruct Ht as [Hop Hk]. split; [done|]. intros x. by apply IH.
Qed.

Lemma preserves_run {A} P (t : Task A) (w : World) :
  preserves P t -> P w -> P (run t w).1.
Proof.
  revert w.
  induction t as [a|e|X op k IH|X op k IH]; intros w Ht Hw; simpl in *; try done.
  - destruct Ht as [Hop Hk]. specialize (Hop w Hw).
    destruct (op w) as [w' x]. by apply IH.
  - destruct Ht as [Hop Hk]. specialize (Hop w Hw).
    destruct (op w) as [w' x]. by apply IH.
Qed.

Lemma preserves_step {A} P (t : Task A) (w : World) :
  preserves P t -> P w -> P (step t w).1 ∧ preserves P (step t w).2.
Proof.
  revert w.
  induction t as [a|e|X op k IH|X op k IH]; intros w Ht Hw; simpl in *; try done.
  - destruct Ht as [Hop Hk]. specialize (Hop w Hw).
    destruct (op w) as [w' x]. by apply IH.
  - destruct Ht as [Hop Hk]. specialize (Hop w Hw).
    destruct (op w) as [w' x]. simpl. split; [done|apply Hk].
Qed.

(** ** The registry *)

Lemma socket_op_frame r f w :
  manager (socket_op r f w).1 = manager w ∧ db (socket_op r f w).1 = db w
  ∧ clock (socket_op r f w).1 = clock w.
Proof.
  unfold socket_op. destruct (heap w !! r) as [s|]; [|done].
  destruct (fault s); [done|]. by case_bool_decide.
Qed.

(** Closing the old socket is best effort: whatever [close] raises is
    swallowed, and only the heap of sockets can have changed. *)
Lemma run_close_best_effort (old_websocket : ws_ref) (w : World) :
  run (try_except (close old_websocket) (fun _ => Return tt)) w =
  ((socket_op old_websocket (fun s => with_application_state s DISCONNECTED) w).1, inr tt).
Proof.
  unfold close. rewrite run_try_except, run_bind. simpl.
  destruct (socket_op _ _ w) as [w' [e|]]; done.
Qed.

Lemma run_sync {X} (op : World -> World * X) (w : World) :
  run (sync op) w = ((op w).1, inr (op w).2).
Proof. simpl. by destruct (op w). Qed.

Lemma run_await {X} (op : World -> World * X) (w : World) :
  run (await op) w = ((op w).1, inr (op w).2).
Proof. simpl. by destruct (op w). Qed.

Lemma run_read_connection (user_id : string) (w : World) :
  run (read_connection user_id) w = (w, inr (active_connections (manager w) !! user_id)).
Proof. done. Qed.

Lemma run_disconnect (user_id : string) (w : World) :
  run (disconnect user_id) w =
  (set_manager w (disconnect_registry user_id (manager w)), inr tt).
Proof. done. Qed.

Lemma old_connection_closed_frame user_id w :
  manager (old_connection_closed user_id w) = manager w
  ∧ db (old_connection_closed user_id w) = db w.
Proof.
  unfold old_connection_closed.
  destruct (active_connections (manager w) !! user_id) as [old|]; [|done].
  destruct (socket_op_frame old (fun s => with_application_state s DISCONNECTED) w)
    as (? & ? & ?). done.
Qed.

Lemma run_register_connection (w : World) (websocket : ws_ref) (user_id user_role : string) :
  run (register_connection websocket user_id user_role) w =
  (set_manager (old_connection_closed user_id w)
     (register_writes websocket user_id user_role (manager w)), inr tt).
Proof.
  unfold register_connection.
  rewrite run_bind, run_read_connection, run_bind.
  assert (Hrun : run match active_connections (manager w) !! user_id with
                     | Some old => try_except (close old) (fun _ => Return tt)
                     | None => Return tt
                     end w = (old_connection_closed user_id w, inr tt)).
  { unfold old_connection_closed.
    destruct (active_connections (manager w) !! user_id) as [old|]; [|done].
    apply run_close_best_effort. }
  rewrite Hrun, run_sync. cbn [fst snd].
  by destruct (old_connection_closed_frame user_id w) as [-> _].
Qed.

(** C1. [register_connection] never raises and ends with the new socket
    and the new role stored under [user_id], whether or not the user was
    connected before; the entries of all other users are kept, and the
    only other effect is the best-effort close of the socket that was
    registered for the user before. *)
Theorem register_connection_last_write_wins
    (w : World) (websocket : ws_ref) (user_id user_role : string) :
  ∃ w', run (register_connection websocket user_id user_role) w = (w', inr tt)
    ∧ active_connections (manager w') !! user_id = Some websocket
    ∧ user_roles (manager w') !! user_id = Some user_role
    ∧ is_user_connected (manager w') user_id = true
    ∧ (∀ u, u ≠ user_id ->
         active_connections (manager w') !! u = active_connections (manager w) !! u
         ∧ user_roles (manager w') !! u = user_roles (manager w) !! u)
    ∧ heap w' =
        match active_connections (manager w) !! user_id with
        | Some old_websocket =>
            heap (socket_op old_websocket
                    (fun s => with_application_state s DISCONNECTED) w).1
        | None => heap w
        end
    ∧ db w' = db w.
Proof.
  rewrite run_register_connection. eexists. split; [done|].
  cbn [manager set_manager heap db].
  unfold register_writes, is_user_connected. cbn [active_connections user_roles].
  rewrite !lookup_insert_eq.
  split_and!; try done.
  - intros u Hu. by rewrite !lookup_insert_ne.
  - unfold old_connection_closed.
    by destruct (active_connections (manager w) !! user_id).
  - apply old_connection_closed_frame.
Qed.

Lemma socket_op_heap_other r r' f w :
  r' ≠ r -> heap (socket_op r f w).1 !! r' = heap w !! r'.
Proof.
  intros Hne. unfold socket_op. destruct (heap w !! r) as [s|]; [|done].
  destruct (fault s); [done|]. case_bool_decide; [|done].
  simpl. by rewrite lookup_insert_ne.
Qed.

Lemma is_user_connected_disconnect (m : ConnectionManager) (user_id : string) :
  is_user_connected (disconnect_registry user_id m) user_id = false.
Proof.
  unfold is_user_connected, disconnect_registry. simpl.
  rewrite lookup_delete_eq. apply bool_decide_eq_false. by intros [? ?].
Qed.

Lemma register_writes_lookup websocket user_id user_role m :
  active_connections (register_writes websocket user_id user_role m) !! user_id
  = Some websocket.
Proof. apply lookup_insert_eq. Qed.

Lemma is_user_connected_register websocket user_id user_role m :
  is_user_connected (register_writes websocket user_id user_role m) user_id = true.
Proof.
  unfold is_user_connected. rewrite register_writes_lookup.
  apply bool_decide_eq_true. by eexists.
Qed.

(** C8. [disconnect] looks at the user id only.  After it the user is not
    connected, whatever socket was registered, and no socket has been
    touched.  In particular, when a second socket replaced the first and
    the cleanup of the first endpoint then calls [disconnect], the second
    socket is dropped from the registry although nothing closed it: its
    object is the same as before it was registered. *)
Theorem disconnect_keyed_by_user_id :
  (∀ (w : World) (user_id : string),
     let w' := (run (disconnect user_id) w).1 in
     (run (disconnect user_id) w).2 = inr tt
     ∧ is_user_connected (manager w') user_id = false
     ∧ active_connections (manager w') !! user_id = None
     ∧ heap w' = heap w)
  ∧ (∀ (w : World) (w1 w2 : ws_ref) (user_id role1 role2 : string),
       w1 ≠ w2 ->
       let wa := (run (register_connection w1 user_id role1) w).1 in
       let wb := (run (register_connection w2 user_id role2) wa).1 in
       let wc := (run (disconnect user_id) wb).1 in
       active_connections (manager wb) !! user_id = Some w2
       ∧ is_user_connected (manager wb) user_id = true
       ∧ is_user_connected (manager wc) user_id = false
       ∧ heap wc !! w2 = heap wa !! w2).
Proof.
  split.
  - intros w user_id. rewrite run_disconnect. cbn [fst snd manager set_manager heap].
    split_and!; try done.
    + apply is_user_connected_disconnect.
    + simpl. apply lookup_delete_eq.
  - intros w w1 w2 user_id role1 role2 Hne.
    rewrite run_register_connection. cbn [fst].
    rewrite run_register_connection. cbn [fst]. rewrite run_disconnect.
    cbn [fst manager set_manager heap].
    split_and!.
    + apply register_writes_lookup.
    + apply is_user_connected_register.
    + apply is_user_connected_disconnect.
    + unfold old_connection_closed at 1. cbn [manager set_manager].
      rewrite register_writes_lookup. by rewrite socket_op_heap_other.
Qed.

(** *** Consistency of the three tables *)

Lemma registry_consistent_init : registry_consistent ConnectionManager_init.
Proof. split; simpl; set_solver. Qed.

Lemma registry_consistent_register websocket user_id user_role m :
  registry_consistent m ->
  registry_consistent (register_writes websocket user_id user_role m).
Proof.
  intros [Ha Hr]. unfold registry_consistent, register_writes. simpl.
  rewrite !dom_insert_L, Hr. split; [|done].
  destruct (is_admin_role user_role); set_solver.
Qed.

Lemma registry_consistent_disconnect user_id m :
  registry_consistent m -> registry_consistent (disconnect_registry user_id m).
Proof.
  intros [Ha Hr]. unfold registry_consistent, disconnect_registry. simpl.
  rewrite !dom_delete_L, Hr. split; [|done]. set_solver.
Qed.

Lemma preserves_socket_op {X} r f (k : option Exc -> Task X) :
  (∀ x, preserves consistent_world (k x)) ->
  preserves consistent_world (Await (socket_op r f) k).
Proof.
  intros Hk. split; [|done]. intros w Hw. unfold consistent_world.
  by destruct (socket_op_frame r f w) as (-> & _ & _).
Qed.

Lemma preserves_raise_if x : preserves consistent_world (raise_if x).
Proof. by destruct x. Qed.

Lemma preserves_send_json r message : preserves consistent_world (send_json r message).
Proof.
  unfold send_json. destruct (json_dumps message); [|done].
  apply preserves_socket_op. intros x. apply preserves_raise_if.
Qed.

Lemma preserves_close r : preserves consistent_world (close r).
Proof. apply preserves_socket_op. intros x. apply preserves_raise_if. Qed.

Lemma preserves_disconnect user_id : preserves consistent_world (disconnect user_id).
Proof.
  split; [|done]. intros w Hw. by apply registry_consistent_disconnect.
Qed.

Lemma preserves_disconnect_all user_ids :
  preserves consistent_world (disconnect_all user_ids).
Proof.
  induction user_ids as [|u us IH]; [done|]. cbn [disconnect_all].
  apply preserves_bind; [apply preserves_disconnect|done].
Qed.

Lemma preserves_register_connection websocket user_id user_role :
  preserves consistent_world (register_connection websocket user_id user_role).
Proof.
  unfold register_connection. apply preserves_bind; [done|]. intros [old|].
  - apply preserves_bind.
    + apply preserves_try_except; [apply preserves_close|done].
    + intros _. split; [|done]. intros w Hw. by apply registry_consistent_register.
  - apply preserves_bind; [done|].
    intros _. split; [|done]. intros w Hw. by apply registry_consistent_register.
Qed.

Lemma preserves_send_personal_message message user_id :
  preserves consistent_world (send_personal_message message user_id).
Proof.
  unfold send_personal_message. apply preserves_bind; [done|]. intros [websocket|]; [|done].
  apply preserves_try_except; [|intros _; apply preserves_disconnect].
  apply preserves_bind; [done|]. intros name.
  case_bool_decide; [apply preserves_send_json|apply preserves_disconnect].
Qed.

Lemma preserves_broadcast_one message user_id websocket disconnected_users :
  preserves consistent_world (broadcast_one message user_id websocket disconnected_users).
Proof.
  unfold broadcast_one. apply preserves_try_except; [|done].
  apply preserves_bind; [done|]. intros name. case_bool_decide; [|done].
  apply preserves_bind; [apply preserves_send_json|done].
Qed.

Lemma preserves_broadcast_to_admins message :
  preserves consistent_world (broadcast_to_admins message).
Proof.
  unfold broadcast_to_admins. apply preserves_bind; [done|]. intros user_ids.
  apply preserves_bind; [|intros d; apply preserves_disconnect_all].
  generalize (@nil string).
  induction user_ids as [|u us IH]; intros d; [done|].
  cbn [broadcast_to_admins_loop].
  apply preserves_bind; [done|]. intros [websocket|]; [|apply IH].
  apply preserves_bind; [apply preserves_broadcast_one|]. intros d'. apply IH.
Qed.

Lemma preserves_broadcast_to_all message :
  preserves consistent_world (broadcast_to_all message).
Proof.
  unfold broadcast_to_all. apply preserves_bind; [done|]. intros items.
  apply preserves_bind; [|intros d; apply preserves_disconnect_all].
  generalize (@nil string).
  induction items as [|[u websocket] us IH]; intros d; [done|].
  cbn [broadcast_to_all_loop].
  apply preserves_bind; [apply preserves_broadcast_one|]. intros d'. apply IH.
Qed.

Lemma preserves_call c : preserves consistent_world (call c).
Proof.
  destruct c; cbn [call].
  - apply preserves_register_connection.
  - apply preserves_disconnect.
  - apply preserves_send_personal_message.
  - apply preserves_broadcast_to_admins.
  - apply preserves_broadcast_to_all.
Qed.

(** C9. In every state the registry reaches from its initial one by
    [register_connection], [disconnect], [send_personal_message],
    [broadcast_to_admins] and [broadcast_to_all] (cleanup included), the
    admins are among the connected users and the users with a role are the
    connected users, so the customer count of [get_connection_info] is not
    negative. *)
Theorem registry_consistent_reachable (w : World) :
  reachable w ->
  admin_connections (manager w) ⊆ dom (active_connections (manager w))
  ∧ dom (user_roles (manager w)) = dom (active_connections (manager w))
  ∧ (0 <= customer_connections (get_connection_info (manager w)))%Z.
Proof.
  intros Hw.
  assert (Hc : registry_consistent (manager w)).
  { induction Hw as [d h c|c w Hw IH|w d h c Hw IH]; simpl.
    - apply registry_consistent_init.
    - by apply (preserves_run consistent_world (call c) w (preserves_call c)).
    - done. }
  destruct Hc as [Ha Hr]. split_and!; try done.
  unfold get_connection_info. simpl.
  apply subseteq_size in Ha. rewrite size_dom in Ha. lia.
Qed.

(** ** The store *)

Lemma set_db_same (w : World) : set_db w (db w) = w.
Proof. by destruct w. Qed.

Lemma run_db_op {X} (op : Db -> Db * X) (w : World) :
  run (db_op op) w = (set_db w (op (db w)).1, inr (op (db w)).2).
Proof. unfold db_op. rewrite run_await. by destruct (op (db w)). Qed.

Lemma run_db_read {X} (q : Db -> X) (w : World) :
  run (db_read q) w = (w, inr (q (db w))).
Proof. unfold db_read. rewrite run_db_op. simpl. by rewrite set_db_same. Qed.

Lemma run_utcnow (w : World) : run utcnow w = (w, inr (clock w)).
Proof. done. Qed.


Lemma find_one_None {A} (f : A -> bool) (c : list A) :
  find_one f c = None ↔ ∀ x, x ∈ c -> f x = false.
Proof.
  split.
  - intros H x Hx. apply (find_none f c H). by apply list_elem_of_In.
  - intros H. unfold find_one. induction c as [|y c IH]; [done|]. simpl.
    rewrite (H y) by left. apply IH. intros x Hx. apply H. by right.
Qed.

(** ** Registration *)







(** ** Writes that leave the rest of a collection alone *)

Section CollectionFrame.
Context {A : Type} (f : A -> bool) (upd : A -> A).

Lemma update_one_no_match (c : list A) :
  (∀ x, x ∈ c -> f x = false) -> update_one f upd c = (c, 0%nat).
Proof.
  induction c as [|y c IH]; intros H; [done|]. simpl.
  rewrite (H y) by left. rewrite IH; [done|]. intros x Hx. apply H. by right.
Qed.

Lemma delete_one_no_match (c : list A) :
  (∀ x, x ∈ c -> f x = false) -> delete_one f c = (c, 0%nat).
Proof.
  induction c as [|y c IH]; intros H; [done|]. simpl.
  rewrite (H y) by left. rewrite IH; [done|]. intros x Hx. apply H. by right.
Qed.

Lemma update_one_matched (c : list A) :
  (update_one f upd c).2 = 0%nat ∨ (update_one f upd c).2 = 1%nat.
Proof.
  induction c as [|y c IH]; [by left|]. simpl. destruct (f y); [by right|].
  by destruct (update_one f upd c).
Qed.

Context (P : A -> bool).

Lemma filter_update_one (c : list A) :
  (∀ x, f x = true -> P x = false ∧ P (upd x) = false) ->
  List.filter P (update_one f upd c).1 = List.filter P c.
Proof.
  intros H. induction c as [|y c IH]; [done|]. simpl.
  destruct (f y) eqn:Hf.
  - destruct (H y Hf) as [Hy Hu]. simpl. by rewrite Hy, Hu.
  - destruct (update_one f upd c) as [c' n]. simpl in *. by rewrite IH.
Qed.

Lemma filter_update_many (c : list A) :
  (∀ x, f x = true -> P x = false ∧ P (upd x) = false) ->
  List.filter P (update_many f upd c).1 = List.filter P c.
Proof.
  intros H. unfold update_many. simpl.
  induction c as [|y c IH]; [done|]. simpl.
  destruct (f y) eqn:Hf.
  - destruct (H y Hf) as [Hy Hu]. by rewrite Hy, Hu.
  - by rewrite IH.
Qed.

Lemma filter_delete_one (c : list A) :
  (∀ x, f x = true -> P x = false) ->
  List.filter P (delete_one f c).1 = List.filter P c.
Proof.
  intros H. induction c as [|y c IH]; [done|]. simpl.
  destruct (f y) eqn:Hf.
  - by rewrite (H y Hf).
  - destruct (delete_one f c) as [c' n]. simpl in *. by rewrite IH.
Qed.
End CollectionFrame.

Lemma with_notifications_same (d : Db) : with_notifications d (notifications d) = d.
Proof. by destruct d. Qed.

Lemma own_notification_other oid user_id n :
  own_notification oid user_id n = true ->
  negb (bool_decide (n_user_id n = user_id)) = false.
Proof.
  unfold own_notification. rewrite andb_true_iff. intros [_ ->]. done.
Qed.

Lemma own_notification_in_other oids user_id n :
  own_notification_in oids user_id n = true ->
  negb (bool_decide (n_user_id n = user_id)) = false.
Proof.
  unfold own_notification_in. rewrite andb_true_iff. intros [_ ->]. done.
Qed.

Lemma own_notification_false oid user_id (c : list Notification) :
  (∀ n, n ∈ c -> n_id n = oid -> n_user_id n ≠ user_id) ->
  ∀ n, n ∈ c -> own_notification oid user_id n = false.
Proof.
  intros H n Hin. unfold own_notification.
  destruct (bool_decide (n_id n = oid)) eqn:Hid; [|done].
  apply bool_decide_eq_true in Hid. simpl.
  apply bool_decide_eq_false. by apply H.
Qed.

(** C10. The three mutations a user can make on notifications all filter
    on [user_id = current_user.id]: after [mark_notification_read],
    [bulk_update_notifications] and [delete_notification] the notifications
    of every other user are the same documents in the same order, and the
    two single-document routes answer 404 and write nothing when the
    documents with the given id all belong to other users. *)
Theorem notification_mutations_scoped_to_caller (w : World) (current_user : UserResponse) :
  (∀ notification_id,
     let out := run (mark_notification_read notification_id current_user) w in
     notifications_of_others (ur_id current_user) (db out.1)
     = notifications_of_others (ur_id current_user) (db w)
     ∧ (∀ oid, ObjectId_of notification_id = Some oid ->
          (∀ n, n ∈ notifications (db w) -> n_id n = oid ->
                n_user_id n ≠ ur_id current_user) ->
          out = (w, inl (HTTPException 404 "Notification not found"))))
  ∧ (∀ bulk_update,
       let out := run (bulk_update_notifications bulk_update current_user) w in
       notifications_of_others (ur_id current_user) (db out.1)
       = notifications_of_others (ur_id current_user) (db w))
  ∧ (∀ notification_id,
       let out := run (delete_notification notification_id current_user) w in
       notifications_of_others (ur_id current_user) (db out.1)
       = notifications_of_others (ur_id current_user) (db w)
       ∧ (∀ oid, ObjectId_of notification_id = Some oid ->
            (∀ n, n ∈ notifications (db w) -> n_id n = oid ->
                  n_user_id n ≠ ur_id current_user) ->
            out = (w, inl (HTTPException 404 "Notification not found")))).
Proof.
  split_and!.
  - intros notification_id out. subst out. unfold mark_notification_read.
    destruct (ObjectId_of notification_id) as [oid|]; [|by split].
    rewrite run_bind, run_utcnow, run_bind, run_db_op.
    split.
    + destruct (update_one _ _ _) as [c n] eqn:Hupd. cbn [fst snd].
      assert (Hc : List.filter (fun n => negb (bool_decide (n_user_id n = ur_id current_user))) c
                   = notifications_of_others (ur_id current_user) (db w)).
      { replace c with (update_one (own_notification oid (ur_id current_user))
                          (set_read true (Some (Some (clock w)))) (notifications (db w))).1
          by (by rewrite Hupd).
        apply filter_update_one. intros x Hx.
        split; [by apply (own_notification_other oid)|].
        simpl. by apply (own_notification_other oid). }
      by case_bool_decide.
    + intros oid' [= <-] Hothers.
      rewrite update_one_no_match by (by apply own_notification_false).
      cbn [fst snd]. rewrite with_notifications_same, set_db_same. done.
  - intros bulk_update out. subst out. unfold bulk_update_notifications.
    rewrite run_bind, run_utcnow, run_db_op.
    destruct (update_many _ _ _) as [c n] eqn:Hupd. cbn [fst snd].
    unfold notifications_of_others at 1. cbn [db set_db notifications with_notifications].
    replace c with (update_many
                      (own_notification_in (notification_ids bulk_update) (ur_id current_user))
                      (set_read (bulk_is_read bulk_update)
                         (if bulk_is_read bulk_update then Some (Some (clock w)) else None))
                      (notifications (db w))).1
      by (by rewrite Hupd).
    apply filter_update_many. intros x Hx.
    split; [by apply (own_notification_in_other (notification_ids bulk_update))|].
    simpl. by apply (own_notification_in_other (notification_ids bulk_update)).
  - intros notification_id out. subst out. unfold delete_notification.
    destruct (ObjectId_of notification_id) as [oid|]; [|by split].
    rewrite run_bind, run_db_op.
    split.
    + destruct (delete_one _ _) as [c n] eqn:Hdel. cbn [fst snd].
      assert (Hc : List.filter (fun n => negb (bool_decide (n_user_id n = ur_id current_user))) c
                   = notifications_of_others (ur_id current_user) (db w)).
      { replace c with (delete_one (own_notification oid (ur_id current_user))
                          (notifications (db w))).1
          by (by rewrite Hdel).
        apply filter_delete_one. intros x Hx. by apply (own_notification_other oid). }
      by case_bool_decide.
    + intros oid' [= <-] Hothers.
      rewrite delete_one_no_match by (by apply own_notification_false).
      cbn [fst snd]. rewrite with_notifications_same, set_db_same. done.
Qed.

(** ** The ticket list *)








(** ** The role guard on tickets *)





(** Properties of the world that only the store decides are kept by the
    senders of the registry and by the handlers that only read. *)
Section StoreOnly.
Context (P : World -> Prop) (HP : ∀ w w', db w' = db w -> P w -> P w').







End StoreOnly.






Lemma find_one_None_update_one {A} (f : A -> bool) (upd : A -> A) (c : list A) :
  find_one f c = None -> update_one f upd c = (c, 0%nat).
Proof. intros H. apply update_one_no_match. by apply find_one_None. Qed.



(** ** Sending to one user *)

Lemma run_send_personal_message_absent message user_id w :
  active_connections (manager w) !! user_id = None ->
  run (send_personal_message message user_id) w = (w, inr tt).
Proof.
  intros H. unfold send_personal_message.
  by rewrite run_bind, run_read_connection, H.
Qed.

Lemma socket_op_cases r f w :
  (∃ s, heap w !! r = Some s ∧ socket_op r f w = (set_heap w (<[r := f s]> (heap w)), None))
  ∨ (∃ e, socket_op r f w = (w, Some e)).
Proof.
  unfold socket_op. destruct (heap w !! r) as [s|]; [|right; by eexists].
  destruct (fault s); [right; by eexists|].
  case_bool_decide; [left; by eexists|right; by eexists].
Qed.

(** One call makes at most one send: either one text frame, the dumped
    message, is appended to the user's socket and the registry is kept, or
    nothing is sent and the user is removed from the registry.  The call
    itself never raises. *)
Lemma send_personal_message_outcome message user_id websocket w :
  active_connections (manager w) !! user_id = Some websocket ->
  let out := run (send_personal_message message user_id) w in
  out.2 = inr tt ∧ db out.1 = db w
  ∧ ((∃ s text, heap w !! websocket = Some s ∧ json_dumps message = Some text
                ∧ heap out.1 = <[websocket := with_sent s (sent s ++ [text])]> (heap w)
                ∧ manager out.1 = manager w)
     ∨ (heap out.1 = heap w
        ∧ manager out.1 = disconnect_registry user_id (manager w))).
Proof.
  intros H out. subst out. unfold send_personal_message.
  rewrite run_bind, run_read_connection, H, run_try_except, run_bind.
  unfold client_state_name. rewrite run_sync. cbn [fst snd].
  case_bool_decide as Hname; [|by rewrite run_disconnect; split_and!; [..|right]].
  unfold send_json. destruct (json_dumps message) as [text|];
    [|by cbn [run]; rewrite run_disconnect; split_and!; [..|right]].
  unfold send_text. rewrite run_bind, run_await.
  destruct (socket_op_cases websocket (fun s => with_sent s (sent s ++ [text])) w)
    as [(s & Hs & ->)|(e & ->)]; cbn [fst snd raise_if run].
  - split_and!; [done|done|]. left. by exists s, text.
  - rewrite run_disconnect. split_and!; [done|done|]. by right.
Qed.

(** ** Creating and broadcasting a notification *)

Lemma json_dumps_Some v text : json_dumps v = Some text -> text = v.
Proof. unfold json_dumps. destruct (json_serializable v); congruence. Qed.

Lemma notification_type_of_value_value ty :
  notification_type_of_value (notification_type_value ty) = Some ty.
Proof. by destruct ty. Qed.

Lemma find_one_fresh {A} (id_of : A -> ObjectId) (oid : ObjectId) (c : list A) (x : A) :
  (∀ y, y ∈ c -> id_of y ≠ oid) -> id_of x = oid ->
  find_one (has_id id_of oid) (c ++ [x]) = Some x.
Proof.
  intros Hc Hx. unfold find_one, has_id.
  induction c as [|y c IH]; simpl.
  - by rewrite bool_decide_eq_true_2.
  - rewrite bool_decide_eq_false_2 by (apply Hc; left).
    apply IH. intros z Hz. apply Hc. by right.
Qed.

Lemma run_create_and_broadcast_notification
    (user_id : string) (notification_type : NotificationType) (title message : string)
    (data : option Value) (ticket_id : option string) (priority : string)
    (uid : ObjectId) (tid : option ObjectId) (w : World) :
  ObjectId_of user_id = Some uid ->
  optional_ObjectId ticket_id = Some tid ->
  is_notification_priority priority = true ->
  (∀ n, n ∈ notifications (db w) -> n_id n ≠ fresh_oid (next_oid (db w))) ->
  let doc := new_notification_document uid notification_type title message data tid
               priority (clock w) (fresh_oid (next_oid (db w))) in
  let w1 := notification_stored uid notification_type title message data tid priority w in
  ∃ notification_response,
    NotificationResponse_of doc = Some notification_response
    ∧ run (create_and_broadcast_notification user_id notification_type title message
             data ticket_id priority) w
      = (match active_connections (manager w) !! user_id with
         | Some _ =>
             (run (send_personal_message
                     (PDict [("type", PStr "notification");
                             ("data", websocket_data_of notification_response)])
                     user_id) w1).1
         | None => w1
         end, inr notification_response).
Proof.
  intros Huid Htid Hprio Hfresh doc w1.
  unfold create_and_broadcast_notification. rewrite Huid, Htid.
  rewrite run_bind, run_utcnow, run_bind, run_db_op. cbn [fst snd].
  rewrite run_bind, run_db_read. fold w1.
  assert (Hn1 : notifications (db w1) = (notifications (db w) ++ [doc])%list) by done.
  assert (Hfind : find_one (has_id n_id (fresh_oid (next_oid (db w))))
                    (notifications (db w1)) = Some doc).
  { rewrite Hn1. by apply find_one_fresh. }
  change (insert_notification _ (db w)).2 with (fresh_oid (next_oid (db w))).
  unfold notification_stored in w1. fold w1. rewrite Hfind.
  assert (Hresp : ∃ resp, NotificationResponse_of doc = Some resp).
  { unfold NotificationResponse_of. subst doc. cbn [n_notification_type
      new_notification_document n_priority].
    rewrite notification_type_of_value_value, Hprio. by eexists. }
  destruct Hresp as [resp Hresp]. rewrite Hresp. exists resp. split; [done|].
  rewrite run_bind, run_sync. cbn [fst snd]. rewrite run_bind.
  assert (Hm1 : manager w1 = manager w) by done.
  unfold is_user_connected. rewrite Hm1.
  destruct (active_connections (manager w) !! user_id) as [websocket|] eqn:Hconn.
  - rewrite bool_decide_eq_true_2 by (by eexists).
    unfold send_notification.
    assert (Hconn1 : active_connections (manager w1) !! user_id = Some websocket)
      by (by rewrite Hm1).
    pose proof (send_personal_message_outcome
                  (PDict [("type", PStr "notification"); ("data", websocket_data_of resp)])
                  user_id websocket w1 Hconn1) as Hout.
    cbv zeta in Hout.
    destruct (run (send_personal_message _ user_id) w1) as [w2 r2].
    cbn [fst snd] in Hout. by destruct Hout as (-> & _ & _).
  - by rewrite bool_decide_eq_false_2 by (by intros [? ?]).
Qed.

(** The payload of a notification frame is never accepted by [json.dumps]:
    [user_id] is still an [ObjectId] and [created_at] a [datetime]. *)
Lemma json_dumps_notification_frame (r : NotificationResponse) :
  json_dumps (PDict [("type", PStr "notification"); ("data", websocket_data_of r)]) = None.
Proof. done. Qed.

(** For a connected user the send of [create_and_broadcast_notification]
    always fails before anything reaches the socket: [json.dumps] raises
    [TypeError], [send_personal_message] logs it and deregisters the user.
    The document is stored (the notifications collection grows by exactly
    that document, the other collections are kept) and the response built
    from it is returned all the same. *)
Theorem notification_deregisters_connected_user
    (user_id : string) (notification_type : NotificationType) (title message : string)
    (data : option Value) (ticket_id : option string) (priority : string)
    (uid : ObjectId) (tid : option ObjectId) (websocket : ws_ref) (w : World) :
  ObjectId_of user_id = Some uid ->
  optional_ObjectId ticket_id = Some tid ->
  is_notification_priority priority = true ->
  (∀ n, n ∈ notifications (db w) -> n_id n ≠ fresh_oid (next_oid (db w))) ->
  active_connections (manager w) !! user_id = Some websocket ->
  let doc := new_notification_document uid notification_type title message data tid
               priority (clock w) (fresh_oid (next_oid (db w))) in
  let out := run (create_and_broadcast_notification user_id notification_type title
                    message data ticket_id priority) w in
  (∃ notification_response,
     NotificationResponse_of doc = Some notification_response
     ∧ out.2 = inr notification_response)
  ∧ notifications (db out.1) = (notifications (db w) ++ [doc])%list
  ∧ users (db out.1) = users (db w)
  ∧ tickets (db out.1) = tickets (db w)
  ∧ messages (db out.1) = messages (db w)
  ∧ heap out.1 = heap w
  ∧ manager out.1 = disconnect_registry user_id (manager w)
  ∧ is_user_connected (manager out.1) user_id = false.
Proof.
  intros Huid Htid Hprio Hfresh Hconn doc out.
  destruct (run_create_and_broadcast_notification user_id notification_type title message
              data ticket_id priority uid tid w Huid Htid Hprio Hfresh)
    as (resp & Hresp & Hrun).
  subst out. rewrite Hrun, Hconn. cbn [fst snd].
  set (w1 := notification_stored uid notification_type title message data tid priority w).
  assert (Hn1 : notifications (db w1) = (notifications (db w) ++ [doc])%list) by done.
  assert (Hm1 : manager w1 = manager w) by done.
  assert (Hh1 : heap w1 = heap w) by done.
  assert (Hconn1 : active_connections (manager w1) !! user_id = Some websocket)
    by (by rewrite Hm1).
  pose proof (send_personal_message_outcome
                (PDict [("type", PStr "notification"); ("data", websocket_data_of resp)])
                user_id websocket w1 Hconn1) as Hout.
  cbv zeta in Hout.
  destruct (run (send_personal_message _ user_id) w1) as [w2 r2].
  cbn [fst snd] in Hout. destruct Hout as (_ & Hdb & Hcases). cbn [fst].
  destruct Hcases as [(s & text & _ & Hdumps & _)|[Hheap Hmgr]].
  - by rewrite json_dumps_notification_frame in Hdumps.
  - rewrite Hheap, Hmgr, Hh1, Hm1, Hdb. split_and!; try done; [by exists resp|].
    apply is_user_connected_disconnect.
Qed.

(** ** Every frame is tagged *)



































(** ** References between the collections *)

Example example_db_intact : references_intact example_db.
Proof.
  split_and!.
  - intros m Hm. by apply elem_of_nil in Hm.
  - intros n oid Hn. by apply elem_of_nil in Hn.
  - intros t Ht. simpl in Ht. rewrite !elem_of_cons, elem_of_nil in Ht.
    destruct Ht as [->|[->|[]]]; done.
Qed.

Ltac evaluate x H :=
  let v := eval vm_compute in x in
  assert (H : x = v) by (vm_compute; reflexivity).

Lemma delete_ticket_only_the_ticket ticket_id current_user w :
  let w' := (run (delete_ticket ticket_id current_user) w).1 in
  messages (db w') = messages (db w) ∧ notifications (db w') = notifications (db w)
  ∧ users (db w') = users (db w).
Proof.
  unfold delete_ticket, require_role. rewrite run_bind.
  case_bool_decide; [|done]. cbn [run].
  destruct (ObjectId_of ticket_id) as [oid|]; [|done].
  rewrite run_bind, run_db_op. destruct (delete_one _ _) as [c n]. cbn [fst snd].
  by case_bool_decide.
Qed.

(** C3. Nothing ties the collections together.  [delete_ticket] writes the
    tickets collection only.  Starting from a store whose references are
    intact, posting a message to a ticket, changing the status of the
    ticket (which stores a notification for it) and deleting the ticket
    leaves a message and a notification whose [ticket_id] names no stored
    ticket.  And when two [delete_message] requests for the same message
    are in flight together, both find the message before either deletes
    it, both decrement, and the ticket's [message_count] ends below the
    number of its messages. *)
Theorem relational_integrity_not_maintained :
  (∀ ticket_id current_user w,
     let w' := (run (delete_ticket ticket_id current_user) w).1 in
     messages (db w') = messages (db w) ∧ notifications (db w') = notifications (db w))
  ∧ references_intact (db example_world)
  ∧ (let w := serve_in_turn [PostMessage (hello 3) carol;
                             PutTicket (str (fresh_oid 3)) close_it carol;
                             DeleteTicket (str (fresh_oid 3)) alan] example_world in
     (∃ m, m ∈ messages (db w) ∧ ¬ ticket_exists (db w) (m_ticket_id m))
     ∧ (∃ n oid, n ∈ notifications (db w) ∧ n_ticket_id n = Some oid
                 ∧ ¬ ticket_exists (db w) oid))
  ∧ (let w1 := serve_in_turn [PostMessage (hello 4) carol; PostMessage (hello 4) carol]
                 example_world in
     let both := event_loop [0; 1; 0; 1; 0; 1]%nat
                   (List.map handler [DeleteMessage (str (fresh_oid 5)) carol;
                                      DeleteMessage (str (fresh_oid 5)) carol]) w1 in
     references_intact (db w1)
     ∧ List.map outcome both.2 = [Some (inr tt); Some (inr tt)]
     ∧ ∃ t, t ∈ tickets (db both.1)
            ∧ t_message_count t = 0%Z
            ∧ messages_of_ticket (db both.1) (t_id t) = 1%Z).
Proof.
  split_and!.
  - intros ticket_id current_user w w'.
    destruct (delete_ticket_only_the_ticket ticket_id current_user w) as (? & ? & _).
    done.
  - apply example_db_intact.
  - intros w.
    evaluate (messages (db w)) Hm. evaluate (notifications (db w)) Hn.
    evaluate (tickets (db w)) Ht. clearbody w.
    assert (Hgone : ¬ ticket_exists (db w) (fresh_oid 3)).
    { intros (t & Hin & Hid). rewrite Ht in Hin.
      apply list_elem_of_singleton in Hin. subst t. discriminate Hid. }
    split.
    + eexists. rewrite Hm. split; [left|exact Hgone].
    + eexists. exists (fresh_oid 3). rewrite Hn.
      split_and!; [left|reflexivity|exact Hgone].
  - intros w1 both.
    evaluate (messages (db w1)) Hm1. evaluate (notifications (db w1)) Hn1.
    evaluate (tickets (db w1)) Ht1.
    evaluate (tickets (db both.1)) Ht. evaluate (messages (db both.1)) Hm.
    evaluate (List.map outcome both.2) Hout.
    clearbody both. clearbody w1.
    split_and!.
    + split_and!.
      * intros m. rewrite Hm1, !elem_of_cons, elem_of_nil.
        intros [->|[->|[]]]; eexists; (split; [rewrite Ht1; right; left|reflexivity]).
      * intros n oid. rewrite Hn1. intros Hin. apply elem_of_nil in Hin. destruct Hin.
      * intros t. unfold messages_of_ticket. rewrite Ht1, Hm1, !elem_of_cons, elem_of_nil.
        intros [->|[->|[]]]; vm_compute; reflexivity.
    + exact Hout.
    + eexists. rewrite Ht. split; [right; left|]. unfold messages_of_ticket.
      rewrite Hm. split; vm_compute; reflexivity.
Qed.

(** ** Delivery of a broadcast *)

Lemma state_name_CONNECTED (s : WebSocketState) :
  state_name s = "CONNECTED" ↔ s = CONNECTED.
Proof. by destruct s. Qed.

Lemma deliver_frame message w r :
  manager (deliver message w r) = manager w ∧ db (deliver message w r) = db w.
Proof.
  unfold deliver.
  by destruct (socket_op_frame r (fun s => with_sent s (sent s ++ [message])) w)
    as (? & ? & _).
Qed.

Lemma deliver_lookup message w r r' :
  ∃ s', heap (deliver message w r) !! r' = s' ∧
    (s' = heap w !! r'
     ∨ ∃ s, heap w !! r' = Some s ∧ r' = r ∧ s' = Some (with_sent s (sent s ++ [message]))).
Proof.
  unfold deliver.
  destruct (socket_op_cases r (fun s => with_sent s (sent s ++ [message])) w)
    as [(s & Hs & ->)|(e & ->)]; cbn [fst heap set_heap]; [|by eauto].
  destruct (decide (r' = r)) as [->|Hne].
  - rewrite lookup_insert_eq. eexists. split; [done|]. right. by exists s.
  - rewrite lookup_insert_ne by done. by eauto.
Qed.

Lemma healthy_deliver message w r r' :
  healthy (deliver message w r) r' = healthy w r'.
Proof.
  unfold healthy.
  destruct (deliver_lookup message w r r') as (s' & -> & [->|(s & -> & _ & ->)]); done.
Qed.

Lemma accepted_deliver message message' w r r' :
  accepted message' (deliver message w r) r' = accepted message' w r'.
Proof. unfold accepted. by rewrite healthy_deliver. Qed.

(** One turn of a broadcast loop: the frame goes out and the list is
    kept, or nothing is sent and the user is added to the list. *)
Lemma run_broadcast_one message user_id websocket disconnected_users w :
  run (broadcast_one message user_id websocket disconnected_users) w =
  if accepted message w websocket
  then (deliver message w websocket, inr disconnected_users)
  else (w, inr (disconnected_users ++ [user_id])%list).
Proof.
  unfold broadcast_one, accepted, healthy, deliver.
  rewrite run_try_except, run_bind. unfold client_state_name. rewrite run_sync.
  cbn [fst snd]. unfold socket_op.
  destruct (heap w !! websocket) as [s|] eqn:Hs; cbn [fmap option_fmap option_map default].
  - case_bool_decide as Hname.
    + apply state_name_CONNECTED in Hname.
      rewrite (bool_decide_eq_true_2 _ Hname). cbn [andb].
      unfold send_json, json_dumps.
      destruct (json_serializable message); [|by rewrite !andb_false_r].
      rewrite !andb_true_r. unfold send_text.
      rewrite run_bind, run_bind, run_await. unfold socket_op. rewrite Hs.
      destruct (fault s) as [e|]; [done|].
      rewrite (bool_decide_eq_true_2 (None = None)) by done. cbn [andb].
      by case_bool_decide.
    + rewrite bool_decide_eq_false_2; [done|].
      intros Hc. apply Hname. by apply state_name_CONNECTED.
  - by rewrite bool_decide_eq_false_2.
Qed.

Lemma admin_targets_deliver message message' w r user_ids :
  admin_targets message' (deliver message w r) user_ids = admin_targets message' w user_ids.
Proof.
  unfold admin_targets. destruct (deliver_frame message w r) as [-> _].
  induction user_ids as [|u us IH]; [done|]. cbn [omap list_omap].
  rewrite IH. destruct (active_connections (manager w) !! u); [|done].
  by rewrite accepted_deliver.
Qed.

Lemma admin_dropped_deliver message message' w r user_ids :
  admin_dropped message' (deliver message w r) user_ids = admin_dropped message' w user_ids.
Proof.
  unfold admin_dropped. destruct (deliver_frame message w r) as [-> _].
  induction user_ids as [|u us IH]; [done|]. cbn [List.filter].
  rewrite IH. destruct (active_connections (manager w) !! u); [|done].
  by rewrite accepted_deliver.
Qed.

Lemma run_broadcast_to_admins_loop message user_ids disconnected_users w :
  run (broadcast_to_admins_loop message user_ids disconnected_users) w =
  (foldl (deliver message) w (admin_targets message w user_ids),
   inr (disconnected_users ++ admin_dropped message w user_ids)%list).
Proof.
  revert disconnected_users w.
  induction user_ids as [|u us IH]; intros d w.
  { cbn. by rewrite app_nil_r. }
  cbn [broadcast_to_admins_loop]. rewrite run_bind, run_read_connection.
  unfold admin_targets, admin_dropped. cbn [omap list_omap List.filter].
  fold (admin_targets message w us). fold (admin_dropped message w us).
  destruct (active_connections (manager w) !! u) as [r|]; [|apply IH].
  rewrite run_bind, run_broadcast_one.
  destruct (accepted message w r) eqn:Hacc; cbn [negb].
  - rewrite IH, admin_targets_deliver, admin_dropped_deliver. done.
  - rewrite IH. cbn [foldl]. by rewrite <- app_assoc.
Qed.

Lemma run_disconnect_all user_ids w :
  run (disconnect_all user_ids) w
  = (set_manager w (disconnect_each user_ids (manager w)), inr tt).
Proof.
  revert w. induction user_ids as [|u us IH]; intros w.
  { by destruct w. }
  cbn [disconnect_all]. rewrite run_bind, run_disconnect, IH. done.
Qed.

Lemma disconnect_each_lookup user_ids m u :
  active_connections (disconnect_each user_ids m) !! u
  = if bool_decide (u ∈ user_ids) then None else active_connections m !! u.
Proof.
  revert m. induction user_ids as [|v vs IH]; intros m.
  { by rewrite bool_decide_eq_false_2 by apply not_elem_of_nil. }
  cbn [disconnect_each foldl]. fold (disconnect_each vs (disconnect_registry v m)).
  rewrite IH. cbn [disconnect_registry active_connections].
  destruct (decide (u = v)) as [->|Hne].
  - rewrite lookup_delete_eq. rewrite (bool_decide_eq_true_2 (v ∈ v :: vs)) by left.
    by case_bool_decide.
  - rewrite lookup_delete_ne by done.
    apply option_eq. intros x. repeat case_bool_decide; try done.
    + exfalso. apply H0. by right.
    + exfalso. apply elem_of_cons in H0 as [?|?]; done.
Qed.

Lemma disconnect_each_admin user_ids m u :
  u ∈ admin_connections (disconnect_each user_ids m)
  ↔ u ∈ admin_connections m ∧ u ∉ user_ids.
Proof.
  revert m. induction user_ids as [|v vs IH]; intros m.
  { cbn. split; [intros ?; split; [done|apply not_elem_of_nil]|tauto]. }
  cbn [disconnect_each foldl]. fold (disconnect_each vs (disconnect_registry v m)).
  rewrite IH. cbn [disconnect_registry admin_connections].
  rewrite not_elem_of_cons. set_solver.
Qed.

Lemma foldl_deliver_frame message rs w :
  manager (foldl (deliver message) w rs) = manager w
  ∧ db (foldl (deliver message) w rs) = db w.
Proof.
  revert w. induction rs as [|r rs IH]; intros w; [done|]. cbn [foldl].
  destruct (IH (deliver message w r)) as [-> ->]. apply deliver_frame.
Qed.

Lemma foldl_deliver_other message rs w r :
  r ∉ rs -> heap (foldl (deliver message) w rs) !! r = heap w !! r.
Proof.
  revert w. induction rs as [|r' rs IH]; intros w Hr; [done|]. cbn [foldl].
  apply not_elem_of_cons in Hr as [Hne Hr]. rewrite IH by done.
  unfold deliver. by apply socket_op_heap_other.
Qed.

Lemma foldl_deliver_keeps message rs w r s :
  heap w !! r = Some s -> message ∈ sent s ->
  ∃ s', heap (foldl (deliver message) w rs) !! r = Some s' ∧ message ∈ sent s'.
Proof.
  revert w s. induction rs as [|r' rs IH]; intros w s Hs Hin; [by eauto|]. cbn [foldl].
  destruct (deliver_lookup message w r' r) as (s' & Hs' & [->|(s0 & Hs0 & _ & ->)]).
  - by apply (IH _ s); [rewrite Hs'|].
  - apply (IH _ (with_sent s0 (sent s0 ++ [message])%list)); [done|].
    cbn. apply elem_of_app. right. by left.
Qed.

Lemma deliver_accepted message w r :
  accepted message w r = true ->
  ∃ s, heap w !! r = Some s
       ∧ heap (deliver message w r) = <[r := with_sent s (sent s ++ [message])]> (heap w).
Proof.
  unfold accepted, healthy, deliver, socket_op.
  destruct (heap w !! r) as [s|]; [|done].
  rewrite !andb_true_iff, !bool_decide_eq_true. intros [[[_ Hf] Ha] _].
  rewrite Hf, bool_decide_eq_true_2 by done. by exists s.
Qed.

Lemma foldl_deliver_sent message rs w r :
  r ∈ rs -> accepted message w r = true ->
  ∃ s', heap (foldl (deliver message) w rs) !! r = Some s' ∧ message ∈ sent s'.
Proof.
  revert w. induction rs as [|r' rs IH]; intros w Hr Hacc.
  { by apply elem_of_nil in Hr. }
  cbn [foldl]. destruct (decide (r = r')) as [<-|Hne].
  - destruct (deliver_accepted message w r Hacc) as (s & Hs & Hheap).
    apply (foldl_deliver_keeps _ _ _ _ (with_sent s (sent s ++ [message])%list)).
    + by rewrite Hheap, lookup_insert_eq.
    + cbn. apply elem_of_app. right. by left.
  - apply elem_of_cons in Hr as [?|Hr]; [done|].
    apply IH; [done|]. by rewrite accepted_deliver.
Qed.

Lemma elem_of_admin_targets message w user_ids r :
  r ∈ admin_targets message w user_ids ↔
  ∃ u, u ∈ user_ids ∧ active_connections (manager w) !! u = Some r
       ∧ accepted message w r = true.
Proof.
  unfold admin_targets. rewrite list_elem_of_omap. split.
  - intros (u & Hu & Hr). exists u. split; [done|].
    destruct (active_connections (manager w) !! u) as [r'|]; [|done].
    destruct (accepted message w r') eqn:Hacc; [|done]. by injection Hr as ->.
  - intros (u & Hu & Hr & Hacc). exists u. split; [done|]. by rewrite Hr, Hacc.
Qed.

Lemma elem_of_admin_dropped message w user_ids u :
  u ∈ admin_dropped message w user_ids ↔
  u ∈ user_ids ∧ ∃ r, active_connections (manager w) !! u = Some r
                      ∧ accepted message w r = false.
Proof.
  unfold admin_dropped. rewrite list_elem_of_In, filter_In, <- list_elem_of_In.
  split.
  - intros [Hu Hr]. split; [done|].
    destruct (active_connections (manager w) !! u) as [r|]; [|done].
    exists r. split; [done|]. by apply negb_true_iff.
  - intros [Hu (r & -> & ->)]. done.
Qed.

Lemma run_broadcast_to_admins message w :
  run (broadcast_to_admins message) w =
  let us := elements (admin_connections (manager w)) in
  (set_manager (foldl (deliver message) w (admin_targets message w us))
     (disconnect_each (admin_dropped message w us) (manager w)), inr tt).
Proof.
  unfold broadcast_to_admins. rewrite run_bind, run_sync. cbn [fst snd].
  rewrite run_bind, run_broadcast_to_admins_loop, run_disconnect_all. cbn [app].
  by destruct (foldl_deliver_frame message
                 (admin_targets message w (elements (admin_connections (manager w)))) w)
    as [-> _].
Qed.

Lemma broadcast_to_admins_delivers message w u r :
  u ∈ admin_connections (manager w) ->
  active_connections (manager w) !! u = Some r ->
  accepted message w r = true ->
  ∃ s', heap (run (broadcast_to_admins message) w).1 !! r = Some s' ∧ message ∈ sent s'.
Proof.
  intros Hu Hr Hacc. rewrite run_broadcast_to_admins. cbn [fst heap set_manager].
  apply foldl_deliver_sent; [|done]. apply elem_of_admin_targets.
  exists u. split_and!; [|done|done]. by apply elem_of_elements.
Qed.

(** [broadcast_to_admins] never raises and leaves the store alone.  An
    admin or agent whose socket takes the frame receives it and stays
    registered; one whose socket does not (or, when [json.dumps] rejects the
    message, every connected one) is removed from the registry.  Users
    outside [admin_connections] keep their entries, and sockets that no
    such user holds are not touched. *)
Theorem broadcast_to_admins_outcome (message : Value) (w : World) :
  let out := run (broadcast_to_admins message) w in
  out.2 = inr tt ∧ db out.1 = db w
  ∧ (∀ u r, u ∈ admin_connections (manager w) ->
            active_connections (manager w) !! u = Some r ->
            if accepted message w r
            then active_connections (manager out.1) !! u = Some r
                 ∧ u ∈ admin_connections (manager out.1)
                 ∧ ∃ s', heap out.1 !! r = Some s' ∧ message ∈ sent s'
            else is_user_connected (manager out.1) u = false
                 ∧ u ∉ admin_connections (manager out.1))
  ∧ (∀ u, u ∉ admin_connections (manager w) ->
          active_connections (manager out.1) !! u = active_connections (manager w) !! u)
  ∧ (∀ r, (∀ u, u ∈ admin_connections (manager w) ->
                active_connections (manager w) !! u ≠ Some r) ->
          heap out.1 !! r = heap w !! r).
Proof.
  intros out. subst out.
  pose proof (broadcast_to_admins_delivers message w) as Hdelivers.
  rewrite run_broadcast_to_admins in *. cbv zeta in *.
  cbn [fst snd db set_manager manager heap] in *.
  set (us := elements (admin_connections (manager w))) in *.
  destruct (foldl_deliver_frame message (admin_targets message w us) w) as [_ Hd].
  rewrite Hd. split_and!; try done.
  - intros u r Hu Hr. destruct (accepted message w r) eqn:Hacc.
    + split_and!.
      * rewrite disconnect_each_lookup, bool_decide_eq_false_2; [done|].
        rewrite elem_of_admin_dropped. intros (_ & r' & Hr' & Hacc'). congruence.
      * apply disconnect_each_admin. split; [done|].
        rewrite elem_of_admin_dropped. intros (_ & r' & Hr' & Hacc'). congruence.
      * by apply (Hdelivers u).
    + assert (Hdrop : u ∈ admin_dropped message w us).
      { apply elem_of_admin_dropped. split; [by apply elem_of_elements|by exists r]. }
      split.
      * unfold is_user_connected.
        rewrite disconnect_each_lookup, (bool_decide_eq_true_2 _ Hdrop).
        apply bool_decide_eq_false. by intros [? ?].
      * rewrite disconnect_each_admin. tauto.
  - intros u Hu. rewrite disconnect_each_lookup, bool_decide_eq_false_2; [done|].
    rewrite elem_of_admin_dropped. intros [Hin _]. by apply elem_of_elements in Hin.
  - intros r Hr. apply foldl_deliver_other.
    rewrite elem_of_admin_targets. intros (u & Hu & Hconn & _).
    apply (Hr u); [by apply elem_of_elements|done].
Qed.

(** [register_connection] adds to [admin_connections] and never takes
    away: a user who is in the set and registers again with a role that is
    neither admin nor agent is recorded with the new role, stays in the set
    and receives the next admin broadcast on the new socket. *)
Theorem register_connection_keeps_admin_flag
    (w : World) (websocket : ws_ref) (user_id user_role : string) (message : Value) :
  user_id ∈ admin_connections (manager w) ->
  is_admin_role user_role = false ->
  let w1 := (run (register_connection websocket user_id user_role) w).1 in
  accepted message w1 websocket = true ->
  let out := run (broadcast_to_admins message) w1 in
  user_roles (manager w1) !! user_id = Some user_role
  ∧ user_id ∈ admin_connections (manager w1)
  ∧ ∃ s', heap out.1 !! websocket = Some s' ∧ message ∈ sent s'.
Proof.
  intros Hadmin Hrole w1 Hacc out. subst out.
  assert (Hm1 : manager w1 = register_writes websocket user_id user_role (manager w)).
  { subst w1. by rewrite run_register_connection. }
  assert (Hin : user_id ∈ admin_connections (manager w1)).
  { rewrite Hm1. unfold register_writes. cbn [admin_connections]. by rewrite Hrole. }
  split_and!; [|done|].
  - rewrite Hm1. apply lookup_insert_eq.
  - apply (broadcast_to_admins_delivers message w1 user_id); [done| |done].
    rewrite Hm1. apply register_writes_lookup.
Qed.

(** ** The endpoint and its clients *)

(** A send to a registered user: the frame goes out, or the user is
    deregistered. *)
Lemma run_send_personal_message message user_id websocket w :
  active_connections (manager w) !! user_id = Some websocket ->
  run (send_personal_message message user_id) w =
  if accepted message w websocket
  then (deliver message w websocket, inr tt)
  else (set_manager w (disconnect_registry user_id (manager w)), inr tt).
Proof.
  intros Hconn. unfold send_personal_message, accepted, healthy, deliver.
  rewrite run_bind, run_read_connection, Hconn, run_try_except, run_bind.
  unfold client_state_name. rewrite run_sync. cbn [fst snd]. unfold socket_op.
  destruct (heap w !! websocket) as [s|] eqn:Hs;
    cbn [fmap option_fmap option_map default].
  - case_bool_decide as Hname.
    + apply state_name_CONNECTED in Hname.
      rewrite (bool_decide_eq_true_2 _ Hname). cbn [andb].
      unfold send_json, json_dumps.
      destruct (json_serializable message); [|by rewrite !andb_false_r].
      rewrite !andb_true_r. unfold send_text.
      rewrite run_bind, run_await. unfold socket_op. rewrite Hs.
      destruct (fault s) as [e|]; [done|].
      rewrite (bool_decide_eq_true_2 (None = None)) by done. cbn [andb].
      by case_bool_decide.
    + rewrite bool_decide_eq_false_2; [done|].
      intros Hc. apply Hname. by apply state_name_CONNECTED.
  - by rewrite bool_decide_eq_false_2.
Qed.

(** [handle_notification_read] answers with the confirmation whether or
    not a notification was marked: when no notification with the given id
    belongs to the caller (it does not exist, or it is someone else's), the
    store is left as it is and the caller's socket still receives
    ["notification_read_confirmed"] for that id. *)
Theorem notification_read_confirmed_without_match
    (notification_id : string) (oid : ObjectId) (current_user : UserResponse)
    (websocket : ws_ref) (w : World) :
  ObjectId_of notification_id = Some oid ->
  (∀ n, n ∈ notifications (db w) -> n_id n = oid -> n_user_id n ≠ ur_id current_user) ->
  active_connections (manager w) !! str (ur_id current_user) = Some websocket ->
  healthy w websocket = true ->
  let out := run (handle_notification_read (PStr notification_id) current_user) w in
  out.2 = inr tt ∧ db out.1 = db w ∧ manager out.1 = manager w
  ∧ ∃ s, heap w !! websocket = Some s
         ∧ heap out.1
           = <[websocket :=
                 with_sent s (sent s ++ [notification_read_confirmed_frame
                                           (PStr notification_id)])]> (heap w).
Proof.
  intros Hoid Hnone Hconn Hhealthy out. subst out.
  unfold handle_notification_read. rewrite Hoid, run_try_except.
  rewrite run_bind, run_utcnow, run_bind, run_db_op.
  rewrite update_one_no_match by (by apply own_notification_false).
  cbn [fst snd]. rewrite with_notifications_same, set_db_same.
  rewrite (run_send_personal_message _ _ websocket) by done.
  fold (notification_read_confirmed_frame (PStr notification_id)).
  assert (Hacc : accepted (notification_read_confirmed_frame (PStr notification_id))
                   w websocket = true).
  { unfold accepted. by rewrite Hhealthy. }
  rewrite Hacc.
  destruct (deliver_frame (notification_read_confirmed_frame (PStr notification_id))
              w websocket) as [Hm Hd].
  destruct (deliver_accepted _ _ _ Hacc) as (s & Hs & Hheap).
  split_and!; [done|done|done|]. by exists s.
Qed.

(** Authentication on the socket reads the store and nothing else. *)
Lemma run_get_current_user_websocket jwt_decode token :
  ∃ result : Db -> Exc + UserResponse,
    ∀ w, run (get_current_user_websocket jwt_decode token) w = (w, result (db w)).
Proof.
  unfold get_current_user_websocket.
  destruct (bool_decide (token = "") || negb (bool_decide (count_dots token = 2%nat))).
  { by exists (fun _ => inl (HTTPException 500 "Authentication error")). }
  destruct (jwt_decode token) as [[user_id|]|].
  - destruct (ObjectId_of user_id) as [oid|].
    + exists (fun d =>
        match find_one (has_id u_id oid) (users d) with
        | None => inl (HTTPException 500 "Authentication error")
        | Some user =>
            if bool_decide (u_status user ≠ ACTIVE)
            then inl (HTTPException 500 "Authentication error")
            else inr (UserResponse_of user)
        end).
      intros w0. rewrite run_try_except, run_bind, run_try_except, run_db_read.
      destruct (find_one (has_id u_id oid) (users (db w0))) as [user|]; [|done].
      by case_bool_decide.
    + by exists (fun _ => inl (HTTPException 500 "Authentication error")).
  - by exists (fun _ => inl (HTTPException 500 "Authentication error")).
  - by exists (fun _ => inl (HTTPException 401 "Invalid token")).
Qed.

Lemma only_socket_touched_refl websocket w : only_socket_touched websocket w w.
Proof. by split_and!. Qed.

Lemma only_socket_touched_heap websocket w w' h :
  only_socket_touched websocket w w' ->
  (∀ r, r ≠ websocket -> h !! r = heap w' !! r) ->
  only_socket_touched websocket w (set_heap w' h).
Proof.
  intros (Hm & Hd & Hh) Hother. split_and!; [done|done|].
  intros r Hr. cbn. by rewrite Hother, Hh.
Qed.

Lemma socket_touched_socket_op {X} websocket w0 f (k : option Exc -> Task X) :
  (∀ x, preserves (only_socket_touched websocket w0) (k x)) ->
  preserves (only_socket_touched websocket w0) (Await (socket_op websocket f) k).
Proof.
  intros Hk. split; [|done]. intros w Hw.
  destruct (socket_op_cases websocket f w) as [(s & Hs & ->)|(e & ->)]; [|done].
  apply only_socket_touched_heap; [done|]. intros r Hr. by apply lookup_insert_ne.
Qed.

Lemma socket_touched_send_json websocket w0 message :
  preserves (only_socket_touched websocket w0) (send_json websocket message).
Proof.
  unfold send_json. destruct (json_dumps message); [|done].
  apply socket_touched_socket_op. by intros [e|].
Qed.

Lemma socket_touched_close websocket w0 :
  preserves (only_socket_touched websocket w0) (close websocket).
Proof. apply socket_touched_socket_op. by intros [e|]. Qed.

Lemma socket_touched_accept websocket w0 :
  preserves (only_socket_touched websocket w0) (accept websocket).
Proof.
  unfold accept. split; [|by intros [e|]]. intros w Hw.
  destruct (heap w !! websocket) as [s|]; [|done].
  destruct (fault s); [done|]. case_bool_decide; [|done].
  apply only_socket_touched_heap; [done|]. intros r Hr. by apply lookup_insert_ne.
Qed.

Lemma socket_touched_internal_error_reply websocket w0 :
  preserves (only_socket_touched websocket w0) (internal_error_reply websocket).
Proof.
  unfold internal_error_reply. apply preserves_try_except; [|done].
  apply preserves_bind; [apply socket_touched_send_json|].
  intros _. apply socket_touched_close.
Qed.

(** A handler that swallows every exception ends normally. *)
Lemma run_try_except_returns (t : Task unit) (h : Exc -> Task unit) w :
  (∀ e w', (run (h e) w').2 = inr tt) -> (run (try_except t h) w).2 = inr tt.
Proof.
  intros Hh. rewrite run_try_except.
  destruct (run t w) as [w' [e|[]]]; [apply Hh|done].
Qed.

Lemma run_internal_error_reply websocket w :
  (run (internal_error_reply websocket) w).2 = inr tt.
Proof. unfold internal_error_reply. by apply run_try_except_returns. Qed.

(** The connection attempt up to the authentication. *)
Lemma run_accept_connection websocket w :
  ∃ wa (accepted_ : bool),
    run (try_except (accept websocket;; Return true) (fun _ => Return false)) w
    = (wa, inr accepted_)
    ∧ only_socket_touched websocket w wa.
Proof.
  pose proof (preserves_run (only_socket_touched websocket w)
                (try_except (accept websocket;; Return true) (fun _ => Return false)) w)
    as Hp.
  rewrite run_try_except, run_bind in *.
  destruct (run (accept websocket) w) as [wa [e|[]]]; cbn [run] in *.
  - exists wa, false. split; [done|]. apply Hp; [|apply only_socket_touched_refl].
    apply preserves_try_except; [|done].
    apply preserves_bind; [apply socket_touched_accept|done].
  - exists wa, true. split; [done|]. apply Hp; [|apply only_socket_touched_refl].
    apply preserves_try_except; [|done].
    apply preserves_bind; [apply socket_touched_accept|done].
Qed.

(** A client whose token does not authenticate is never entered in the
    registry: whatever the token and whatever the client sends, the
    endpoint ends without an exception, the registry and the store are as
    before, and no socket other than the client's own has been touched. *)
Theorem unauthenticated_client_is_never_registered
    (jwt_decode : string -> option (option string)) (websocket : ws_ref) (token : string)
    (incoming : list (option Value)) (w : World) (e : Exc) :
  (run (get_current_user_websocket jwt_decode token) w).2 = inl e ->
  let out := run (websocket_endpoint jwt_decode websocket token incoming) w in
  out.2 = inr tt ∧ manager out.1 = manager w ∧ db out.1 = db w
  ∧ ∀ r, r ≠ websocket -> heap out.1 !! r = heap w !! r.
Proof.
  intros Hauth out. subst out. unfold websocket_endpoint.
  destruct (run_accept_connection websocket w) as (wa & acc & Hrun & Hwa).
  rewrite run_bind, Hrun. destruct acc; cbn [negb]; [|by destruct Hwa as (? & ? & ?)].
  destruct (run_get_current_user_websocket jwt_decode token) as [result Hresult].
  rewrite Hresult in Hauth. cbn [snd] in Hauth.
  rewrite run_bind, run_try_except, run_bind, Hresult.
  destruct Hwa as (Hm & Hd & Hh). rewrite Hd, Hauth. cbn [run].
  set (reply := match e with
                | HTTPException status_code detail =>
                    try_except (send_json websocket (error_frame detail status_code);;
                                close websocket)
                      (fun _ => internal_error_reply websocket)
                | _ => internal_error_reply websocket
                end).
  assert (Hret : (run reply wa).2 = inr tt).
  { subst reply. destruct e as [status_code detail| | |];
      [|apply run_internal_error_reply..].
    apply run_try_except_returns. intros _ w'. apply run_internal_error_reply. }
  assert (Hp : preserves (only_socket_touched websocket w) reply).
  { subst reply. destruct e as [status_code detail| | |];
      [|apply socket_touched_internal_error_reply..].
    apply preserves_try_except; [|intros _; apply socket_touched_internal_error_reply].
    apply preserves_bind; [apply socket_touched_send_json|].
    intros _. apply socket_touched_close. }
  assert (Hw : only_socket_touched websocket w wa) by (by split_and!).
  pose proof (preserves_run _ reply wa Hp Hw) as (Hm' & Hd' & Hh').
  by split_and!.
Qed.


(** ** The model at work *)

(** Carol connects, pings once and leaves: the socket was handed the
    confirmation and the pong, and the cleanup emptied the registry. *)
Example endpoint_ping_pong :
  let out := run (websocket_endpoint example_jwt_decode 7%nat "carol.jwt.token"
                    [Some ping]) knocking_world in
  out.2 = inr tt
  ∧ sent <$> heap out.1 !! 7%nat
    = Some [connection_established_frame carol;
            PDict [("type", PStr "pong"); ("timestamp", PInt 42)]]
  ∧ is_user_connected (manager out.1) (str (fresh_oid 1)) = false.
Proof. vm_compute. done. Qed.

(** A token the service rejects: one error frame, nobody registered. *)
Example endpoint_bad_token :
  let out := run (websocket_endpoint example_jwt_decode 7%nat "x.y.z" []) knocking_world in
  sent <$> heap out.1 !! 7%nat = Some [error_frame "Invalid token" 401]
  ∧ application_state <$> heap out.1 !! 7%nat = Some DISCONNECTED.
Proof. vm_compute. done. Qed.

(** A token without three segments: the [HTTPException] of the format
    check is caught by the last [except] clause of the authentication. *)
Example endpoint_malformed_token :
  let out := run (websocket_endpoint example_jwt_decode 7%nat "nodots" []) knocking_world in
  sent <$> heap out.1 !! 7%nat = Some [error_frame "Authentication error" 500].
Proof. vm_compute. done. Qed.

Example register_user_twice :
  let new_user := {| uc_username := "carol"; uc_email := "new@example.org";
                     uc_full_name := "Carol Again"; uc_role := CUSTOMER;
                     uc_status := ACTIVE; uc_phone := None; uc_department := None;
                     uc_avatar_url := None; uc_password := "Secret123" |} in
  (run (register_user (fun p => p) new_user) example_world).2
  = inl (HTTPException 400 "Username already taken").
Proof. vm_compute. done. Qed.

Example permission_examples :
  (run (check_ticket_permissions (str (fresh_oid 3)) carol) example_world).2 = inr true
  ∧ (run (check_ticket_permissions (str (fresh_oid 3)) alan) example_world).2 = inr true
  ∧ (run (check_ticket_permissions (str (fresh_oid 9)) alan) example_world).2 = inr false.
Proof. vm_compute. done. Qed.

Example math_ceil_div_examples :
  math_ceil_div 0 20 = 0%Z ∧ math_ceil_div 1 20 = 1%Z ∧ math_ceil_div 40 20 = 2%Z
  ∧ math_ceil_div 41 20 = 3%Z.
Proof. vm_compute. done. Qed.

(** C2 at a connected user.  Carol is registered and her socket is open
    and healthy, so the claim has a send attempted on it.  The code stores
    the document and builds the response, then fails before the send:
    [json.dumps] rejects the payload, which still holds an [ObjectId] and a
    [datetime]; nothing reaches the socket, Carol is deregistered, and the
    response is returned. *)
Example notification_for_connected_user :
  let out := run (create_and_broadcast_notification (str (fresh_oid 1)) SYSTEM_ALERT
                    "Maintenance" "Tonight at ten" None None "high") connected_world in
  is_user_connected (manager connected_world) (str (fresh_oid 1)) = true
  ∧ healthy connected_world 7%nat = true
  ∧ notifications (db out.1)
    = [new_notification_document (fresh_oid 1) SYSTEM_ALERT "Maintenance"
         "Tonight at ten" None None "high" 10 (fresh_oid 5)]
  ∧ (∃ notification_response, out.2 = inr notification_response)
  ∧ sent <$> heap out.1 !! 7%nat = Some []
  ∧ is_user_connected (manager out.1) (str (fresh_oid 1)) = false.
Proof. vm_compute. split_and!; try done. by eexists. Qed.

(** Two registrations of the same newcomer in flight at once: both pass
    the existence check before either inserts; the unique indexes refuse the
    second insert, which ends with [DuplicateKeyError], and one document is
    stored. *)
Example register_user_interleaved :
  let requests := [register_user (fun password => password) dave;; Return tt;
                   register_user (fun password => password) dave;; Return tt] in
  let after := event_loop [0; 1; 0; 1; 0; 1]%nat requests example_world in
  List.map outcome after.2 = [Some (inr tt); Some (inl (Exception "DuplicateKeyError"))]
  ∧ u_username <$> users (db after.1) = ["carol"; "alan"; "dave"].
Proof. vm_compute. done. Qed.

(** Two tabs of the same user, interleaved by the event loop.  The first
    tab is registered; the second replaces it and closes the first socket;
    the cleanup of the first endpoint then calls [disconnect] and drops the
    registration of the second tab, whose socket is open and whose endpoint
    is still waiting for frames. *)
Example replaced_connection_dropped_by_cleanup :
  let tabs := [websocket_endpoint example_jwt_decode 7%nat "carol.jwt.token" [];
               websocket_endpoint example_jwt_decode 8%nat "carol.jwt.token" [Some ping]] in
  let before := event_loop [0; 0; 0; 1; 1; 1; 1]%nat tabs two_tabs_world in
  let after := event_loop [0]%nat before.2 before.1 in
  active_connections (manager before.1) !! str (fresh_oid 1) = Some 8%nat
  ∧ is_user_connected (manager after.1) (str (fresh_oid 1)) = false
  ∧ application_state <$> heap after.1 !! 8%nat = Some CONNECTED
  ∧ client_state <$> heap after.1 !! 8%nat = Some CONNECTED
  ∧ List.map outcome after.2 = [Some (inr tt); None].
Proof. vm_compute. done. Qed.

(** A token that does not have three segments: the [HTTPException] 401 of
    the format check is raised inside the [try] whose last clause catches
    every [Exception], so the caller sees 500 "Authentication error". *)
Theorem malformed_token_is_an_authentication_error
    (jwt_decode : string -> option (option string)) (token : string) (w : World) :
  count_dots token ≠ 2%nat ->
  run (get_current_user_websocket jwt_decode token) w
  = (w, inl (HTTPException 500 "Authentication error")).
Proof.
  intros Hdots. unfold get_current_user_websocket. rewrite run_try_except.
  rewrite (bool_decide_eq_false_2 (count_dots token = 2%nat)) by done.
  by rewrite orb_true_r.
Qed.

Lemma malformed_token_witness :
  count_dots "nodots" ≠ 2%nat
  ∧ run (get_current_user_websocket example_jwt_decode "nodots") knocking_world
    = (knocking_world, inl (HTTPException 500 "Authentication error")).
Proof.
  assert (H : count_dots "nodots" ≠ 2%nat) by (vm_compute; discriminate).
  split; [exact H|].
  exact (malformed_token_is_an_authentication_error example_jwt_decode "nodots"
           knocking_world H).
Defined.

(** ** Instances of the theorems with hypotheses *)


Lemma registry_consistent_reachable_witness :
  reachable (run (call (CallRegister 7%nat "u1" "admin")) knocking_world).1
  ∧ admin_connections (manager (run (call (CallRegister 7%nat "u1" "admin"))
                                  knocking_world).1)
    ⊆ dom (active_connections (manager (run (call (CallRegister 7%nat "u1" "admin"))
                                          knocking_world).1)).
Proof.
  assert (H : reachable (run (call (CallRegister 7%nat "u1" "admin")) knocking_world).1).
  { apply reachable_call. apply (reachable_init example_db {[7%nat := new_socket]} 10). }
  split; [exact H|].
  exact (proj1 (registry_consistent_reachable _ H)).
Defined.


Lemma disconnect_keyed_by_user_id_witness :
  (7 ≠ 8)%nat
  ∧ is_user_connected
      (manager (run (disconnect "u1")
                  (run (register_connection 8%nat "u1" "customer")
                     (run (register_connection 7%nat "u1" "customer")
                        knocking_world).1).1).1) "u1" = false.
Proof.
  assert (H : (7 ≠ 8)%nat) by lia.
  split; [exact H|].
  exact (proj1 (proj2 (proj2 (proj2 disconnect_keyed_by_user_id knocking_world 7%nat 8%nat
                                  "u1" "customer" "customer" H)))).
Defined.

Lemma notification_deregisters_connected_user_witness :
  ObjectId_of (str (fresh_oid 1)) = Some (fresh_oid 1)
  ∧ optional_ObjectId None = Some None
  ∧ is_notification_priority "high" = true
  ∧ (∀ n, n ∈ notifications (db connected_world) ->
          n_id n ≠ fresh_oid (next_oid (db connected_world)))
  ∧ active_connections (manager connected_world) !! str (fresh_oid 1) = Some 7%nat
  ∧ notifications
      (db (run (create_and_broadcast_notification (str (fresh_oid 1)) SYSTEM_ALERT
                  "Maintenance" "Tonight at ten" None None "high")
             connected_world).1)
    = [new_notification_document (fresh_oid 1) SYSTEM_ALERT "Maintenance"
         "Tonight at ten" None None "high" 10 (fresh_oid 5)]
  ∧ is_user_connected
      (manager (run (create_and_broadcast_notification (str (fresh_oid 1)) SYSTEM_ALERT
                       "Maintenance" "Tonight at ten" None None "high")
                  connected_world).1) (str (fresh_oid 1)) = false.
Proof.
  assert (H1 : ObjectId_of (str (fresh_oid 1)) = Some (fresh_oid 1))
    by (vm_compute; reflexivity).
  assert (H2 : optional_ObjectId None = Some None) by reflexivity.
  assert (H3 : is_notification_priority "high" = true) by (vm_compute; reflexivity).
  assert (H4 : ∀ n, n ∈ notifications (db connected_world) ->
                    n_id n ≠ fresh_oid (next_oid (db connected_world))).
  { intros n Hn. simpl in Hn. by apply elem_of_nil in Hn. }
  assert (H5 : active_connections (manager connected_world) !! str (fresh_oid 1)
               = Some 7%nat) by (vm_compute; reflexivity).
  split; [exact H1|]. split; [exact H2|]. split; [exact H3|]. split; [exact H4|].
  split; [exact H5|].
  pose proof (notification_deregisters_connected_user
                (str (fresh_oid 1)) SYSTEM_ALERT "Maintenance" "Tonight at ten" None
                None "high" (fresh_oid 1) None 7%nat connected_world
                H1 H2 H3 H4 H5) as H.
  exact (conj (proj1 (proj2 H))
              (proj2 (proj2 (proj2 (proj2 (proj2 (proj2 (proj2 H)))))))).
Defined.

Lemma register_connection_keeps_admin_flag_witness :
  str (fresh_oid 2) ∈ admin_connections (manager agent_world)
  ∧ is_admin_role "customer" = false
  ∧ accepted new_ticket_alert
      (run (register_connection 8%nat (str (fresh_oid 2)) "customer") agent_world).1
      8%nat = true
  ∧ user_roles
      (manager (run (register_connection 8%nat (str (fresh_oid 2)) "customer")
                  agent_world).1) !! str (fresh_oid 2) = Some "customer"
  ∧ str (fresh_oid 2)
    ∈ admin_connections
        (manager (run (register_connection 8%nat (str (fresh_oid 2)) "customer")
                    agent_world).1).
Proof.
  assert (H1 : str (fresh_oid 2) ∈ admin_connections (manager agent_world))
    by (vm_compute; reflexivity).
  assert (H2 : is_admin_role "customer" = false) by (vm_compute; reflexivity).
  assert (H3 : accepted new_ticket_alert
                 (run (register_connection 8%nat (str (fresh_oid 2)) "customer")
                    agent_world).1 8%nat = true) by (vm_compute; reflexivity).
  split; [exact H1|]. split; [exact H2|]. split; [exact H3|].
  pose proof (register_connection_keeps_admin_flag agent_world 8%nat
                (str (fresh_oid 2)) "customer" new_ticket_alert H1 H2 H3) as H.
  exact (conj (proj1 H) (proj1 (proj2 H))).
Defined.

Lemma notification_read_confirmed_without_match_witness :
  ObjectId_of (str (fresh_oid 6)) = Some (fresh_oid 6)
  ∧ (∀ n, n ∈ notifications (db inbox_world) -> n_id n = fresh_oid 6 ->
          n_user_id n ≠ ur_id carol)
  ∧ active_connections (manager inbox_world) !! str (ur_id carol) = Some 7%nat
  ∧ healthy inbox_world 7%nat = true
  ∧ db (run (handle_notification_read (PStr (str (fresh_oid 6))) carol) inbox_world).1
    = db inbox_world.
Proof.
  assert (H1 : ObjectId_of (str (fresh_oid 6)) = Some (fresh_oid 6))
    by (vm_compute; reflexivity).
  assert (H2 : ∀ n, n ∈ notifications (db inbox_world) -> n_id n = fresh_oid 6 ->
                    n_user_id n ≠ ur_id carol).
  { intros n Hn Hid. cbn in Hn.
    repeat (apply elem_of_cons in Hn as [->|Hn]); try discriminate Hid;
      [discriminate|by apply elem_of_nil in Hn]. }
  assert (H3 : active_connections (manager inbox_world) !! str (ur_id carol) = Some 7%nat)
    by (vm_compute; reflexivity).
  assert (H4 : healthy inbox_world 7%nat = true) by (vm_compute; reflexivity).
  split; [exact H1|]. split; [exact H2|]. split; [exact H3|]. split; [exact H4|].
  exact (proj1 (proj2 (notification_read_confirmed_without_match (str (fresh_oid 6))
                         (fresh_oid 6) carol 7%nat inbox_world H1 H2 H3 H4))).
Defined.

Lemma unauthenticated_client_is_never_registered_witness :
  (run (get_current_user_websocket example_jwt_decode "not.carols.token")
     knocking_world).2 = inl (HTTPException 401 "Invalid token")
  ∧ manager (run (websocket_endpoint example_jwt_decode 7%nat "not.carols.token"
                    [Some ping]) knocking_world).1
    = manager knocking_world.
Proof.
  assert (H : (run (get_current_user_websocket example_jwt_decode "not.carols.token")
                 knocking_world).2 = inl (HTTPException 401 "Invalid token"))
    by (vm_compute; reflexivity).
  split; [exact H|].
  exact (proj1 (proj2 (unauthenticated_client_is_never_registered example_jwt_decode
                         7%nat "not.carols.token" [Some ping] knocking_world _ H))).
Defined.

